(** * Local stock analyst: provider fallback layer and indicator engine

    A shallow embedding of the TypeScript/JavaScript sources

      - [build/lib/indicators.js]      ema, calculateRsiFromCandles,
                                       calculateMacdFromCandles
      - [build/providers/http.js]      ProviderError
      - [src/providers/finnhub.ts]     FinnhubClient
      - [src/providers/alphavantage.ts] AlphaVantageClient
      - the server entry point         toUserErrorMessage, executeWithFallback

    Conventions of the embedding.

      - A JavaScript [number] that carries a price or an indicator value is a
        binary64 float ([PrimFloat.float]): [+ - * /] are the IEEE operations
        JavaScript performs, [===] on numbers is [PrimFloat.eqb].
      - A [number] that carries an epoch timestamp (seconds or milliseconds)
        is an integer [Z]; a [number] used as a loop bound or an array index
        (a period, a length) is a [nat], converted with [Number_of_nat]
        where the source does arithmetic on it.
      - [null] in an array of numbers is [None]; reading an array past its
        end ([undefined]) is the [None] of [l !! i].
      - An optional field or an optional argument is an [option].
      - An [await]ed provider call either returns or throws: [Result]. *)

From Stdlib Require Import ZArith Floats Lia Ascii String Sorting.Sorted Sorting.Permutation.
From Stdlib Require Uint63.
From stdpp Require Import base option list strings gmap pretty.

Set Default Proof Using "Type".

(* ================================================================== *)
(** * Part I: the embedding                                            *)
(* ================================================================== *)

(** ** JavaScript built-ins used by the sources *)

Module Js.

(** A non-negative integer [number] (a period, an array length) as the
    double JavaScript computes with: the integer rounded to binary64 (exact
    below 2^53; the conversion goes through a 63-bit integer, so [n] is
    taken below 2^63). *)
Definition Number_of_nat (n : nat) : float :=
  of_uint63 (Uint63.of_Z (Z.of_nat n)).

(** [Math.max(x, y)]: NaN when either argument is NaN, and [+0] is larger
    than [-0]. *)
Definition Math_max (x y : float) : float :=
  if PrimFloat.is_nan x || PrimFloat.is_nan y then nan
  else if (x <? y)%float then y
  else if (y <? x)%float then x
  else if get_sign x then y else x.

(** [x === y] on numbers. *)
Definition strict_eq (x y : float) : bool := (x =? y)%float.

(** [Number.isFinite(x)]. *)
Definition Number_isFinite (x : float) : bool := PrimFloat.is_finite x.

(** [!x] for a number: true on [+0], [-0] and NaN. *)
Definition falsy (x : float) : bool := PrimFloat.is_zero x || PrimFloat.is_nan x.

(** Reading [values[i]] where the result is used in arithmetic: an index
    past the end reads [undefined], which arithmetic turns into NaN. *)
Definition num_at (values : list float) (i : nat) : float :=
  default nan (values !! i).

(** [for (let i = start; i < stop; i += 1) body], the loop state threaded
    through the iterations. *)
Definition for_range {S : Type} (start stop : nat) (body : nat → S → S) (init : S) : S :=
  fold_left (λ s i, body i s) (seq start (stop - start)) init.

(** [x ?? d]. *)
Definition nullish {A : Type} (x : option A) (d : A) : A := default d x.

(** What the host's string-to-number and date parsers return. [Number(s)]
    is a double (NaN when [s] is no numeral); [new Date(s).getTime()] is an
    integer count of milliseconds, or NaN ([None]) for an invalid date. *)
Class Runtime := {
  Number_parse : string → float;
  Date_getTime : string → option Z;
}.




End Js.

Import Js.

(** ** Normalized data model ([src/providers/types.ts]) *)

Inductive ProviderName := finnhub | alphavantage.

Inductive Interval := I1 | I5 | I15 | I30 | I60 | ID | IW | IM.

Record NormalizedQuote := {
  q_symbol : string;
  price : float;
  change : float;
  percentChange : float;
  q_high : float;
  q_low : float;
  q_open : float;
  previousClose : float;
  q_timestamp : option Z;
  q_source : ProviderName;
}.

Record NormalizedCandle := {
  timestamp : Z;
  open : float;
  high : float;
  low : float;
  close : float;
  volume : float;
}.

Record NormalizedRsiPoint := {
  rsi_timestamp : Z;
  value : float;
}.

Record NormalizedMacdPoint := {
  macd_timestamp : Z;
  macd : float;
  signal : float;
  histogram : float;
}.

(** A [datetime] is a number of seconds, or NaN ([None]). *)
Definition Seconds : Type := option Z.

Record NormalizedNewsItem := {
  headline : string;
  summary : option string;
  url : option string;
  news_source : option string;
  datetime : option Seconds;
}.

(** ** Indicator engine ([build/lib/indicators.js]) *)

Module Indicators.

(** [candles[i].timestamp]. Every read in this file is in range (the loop
    bounds guarantee it); an out-of-range read would throw in JavaScript. *)
Definition timestamp_at (candles : list NormalizedCandle) (i : nat) : Z :=
  from_option timestamp 0%Z (candles !! i).

(** The body of [ema]'s loop: the state is [(previous, output)]. *)
Definition ema_step (values : list float) (multiplier : float) (i : nat)
    (st : float * list (option float)) : float * list (option float) :=
  let '(previous, output) := st in
  let previous := ((num_at values i - previous) * multiplier + previous)%float in
  (previous, <[i := Some previous]> output).

Definition ema (values : list float) (period : nat) : list (option float) :=
  if (length values <? period)%nat then []
  else
    let multiplier := (2 / (Number_of_nat period + 1))%float in
    let output := replicate (length values) None in
    let previous :=
      (fold_left (λ sum item, sum + item) (take period values) 0
       / Number_of_nat period)%float in
    (* output[period - 1] = previous; index -1 is no element of the array *)
    let output :=
      match period with
      | O => output
      | S p => <[p := Some previous]> output
      end in
    snd (for_range period (length values) (ema_step values multiplier)
           (previous, output)).

(** [const delta = closes[i] - closes[i - 1]]. *)
Definition close_delta (closes : list float) (i : nat) : float :=
  (num_at closes i - num_at closes (i - 1))%float.

(** The first loop of [calculateRsiFromCandles]: the state is
    [(gains, losses)]. *)
Definition gain_loss_step (closes : list float) (i : nat)
    (st : list float * list float) : list float * list float :=
  let '(gains, losses) := st in
  let delta := close_delta closes i in
  (gains ++ [Math_max delta 0], losses ++ [Math_max (- delta) 0]).

Definition gains_losses (closes : list float) : list float * list float :=
  for_range 1 (length closes) (gain_loss_step closes) ([], []).

(** The second loop: the state is [(avgGain, avgLoss, points)]. *)
Definition rsi_step (candles : list NormalizedCandle) (gains losses : list float)
    (period : nat) (i : nat)
    (st : float * float * list NormalizedRsiPoint)
    : float * float * list NormalizedRsiPoint :=
  let '(avgGain, avgLoss, points) := st in
  let avgGain :=
    ((avgGain * (Number_of_nat period - 1) + num_at gains i)
     / Number_of_nat period)%float in
  let avgLoss :=
    ((avgLoss * (Number_of_nat period - 1) + num_at losses i)
     / Number_of_nat period)%float in
  let rs := if strict_eq avgLoss 0 then 100%float else (avgGain / avgLoss)%float in
  let rsi := if strict_eq avgLoss 0 then 100%float else (100 - 100 / (1 + rs))%float in
  (avgGain, avgLoss,
   points ++ [{| rsi_timestamp := timestamp_at candles (i + 1); value := rsi |}]).

(** The state [(avgGain, avgLoss, points)] of the second loop once its
    iterations [period <= i < stop] have run, from the seeded averages. *)
Definition rsi_state (candles : list NormalizedCandle) (period stop : nat)
    : float * float * list NormalizedRsiPoint :=
  let closes := close <$> candles in
  let '(gains, losses) := gains_losses closes in
  let avgGain :=
    (fold_left (λ sum value, sum + value) (take period gains) 0
     / Number_of_nat period)%float in
  let avgLoss :=
    (fold_left (λ sum value, sum + value) (take period losses) 0
     / Number_of_nat period)%float in
  for_range period stop (rsi_step candles gains losses period) (avgGain, avgLoss, []).

Definition calculateRsiFromCandles (candles : list NormalizedCandle) (period : nat)
    : list NormalizedRsiPoint :=
  if (length candles <=? period)%nat then []
  else
    let closes := close <$> candles in
    let '(gains, _) := gains_losses closes in
    (rsi_state candles period (length gains)).2.

(** [x === null] for an array read. *)
Definition is_null (x : option (option float)) : bool :=
  match x with Some None => true | _ => false end.

(** An array read used as an operand of [-]: [undefined] converts to NaN
    ([null] would convert to 0). *)
Definition operand (x : option (option float)) : float :=
  match x with
  | Some (Some v) => v
  | Some None => 0%float
  | None => nan
  end.

(** One element of [macdLine]. *)
Definition macd_line_at (fast slow : list (option float)) (index : nat) : option float :=
  if is_null (fast !! index) || is_null (slow !! index) then None
  else Some (operand (fast !! index) - operand (slow !! index))%float.

(** The body of the alignment loop: the state is [(signalCursor, output)]. *)
Definition macd_step (candles : list NormalizedCandle)
    (macdLine signalRaw : list (option float)) (i : nat)
    (st : nat * list NormalizedMacdPoint) : nat * list NormalizedMacdPoint :=
  let '(signalCursor, output) := st in
  match mjoin (macdLine !! i) with
  | None => st                                     (* continue *)
  | Some macd =>
      let signal := mjoin (signalRaw !! signalCursor) in
      let signalCursor := (signalCursor + 1)%nat in
      match signal with
      | None => (signalCursor, output)             (* continue *)
      | Some signal =>
          (signalCursor,
           output ++ [{| macd_timestamp := timestamp_at candles i;
                         macd := macd;
                         signal := signal;
                         histogram := (macd - signal)%float |}])
      end
  end.

Definition calculateMacdFromCandles (candles : list NormalizedCandle)
    (fastPeriod slowPeriod signalPeriod : nat) : list NormalizedMacdPoint :=
  if (length candles <? slowPeriod + signalPeriod)%nat then []
  else
    let closes := close <$> candles in
    let fast := ema closes fastPeriod in
    let slow := ema closes slowPeriod in
    let macdLine := imap (λ index _, macd_line_at fast slow index) closes in
    let cleanMacd := omap id macdLine in
    let signalRaw := ema cleanMacd signalPeriod in
    if (length signalRaw =? 0)%nat then []
    else
      snd (for_range 0 (length macdLine)
             (macd_step candles macdLine signalRaw) (0%nat, [])).

(** What holds of the state [(previous, output)] of [ema]'s loop once the
    iterations below [n] have run, from the seed written at [period - 1]. *)
Definition ema_inv (values : list float) (multiplier seed : float) (period n : nat)
    (st : float * list (option float)) : Prop :=
  length st.2 = length values
  ∧ st.2 !! (n - 1) = Some (Some st.1)
  ∧ (∀ i, i < period - 1 → st.2 !! i = Some None)
  ∧ st.2 !! (period - 1) = Some (Some seed)
  ∧ ∀ i, period ≤ i < n →
      ∃ previous current,
        st.2 !! (i - 1) = Some (Some previous)
        ∧ values !! i = Some current
        ∧ st.2 !! i = Some (Some ((current - previous) * multiplier + previous)%float).

(** The simple mean of a list, with the sum taken from 0 in list order as
    [reduce] does. *)
Definition simple_mean (l : list float) : float :=
  (fold_left (λ sum item, sum + item) l 0 / Number_of_nat (length l))%float.




(** The period is a positive finite double and so is [period - 1] (finite):
    the running averages then stay numbers. *)
Definition usable_period (period : nat) : bool :=
  PrimFloat.is_finite (Number_of_nat period)
  && negb (PrimFloat.is_zero (Number_of_nat period))
  && PrimFloat.is_finite (Number_of_nat period - 1).

(** A candle whose prices are all [c]. *)
Definition flat_candle (t : Z) (c : float) : NormalizedCandle :=
  {| timestamp := t; open := c; high := c; low := c; close := c; volume := 0 |}.

(** Closes 3, 2, 1, 2, 3, 4: two falls (the seed window of period 2), then
    three rises. *)
Definition dip_then_rise : list NormalizedCandle :=
  [flat_candle 1 3; flat_candle 2 2; flat_candle 3 1;
   flat_candle 4 2; flat_candle 5 3; flat_candle 6 4].


End Indicators.

(** ** Provider errors and awaited calls ([build/providers/http.js]) *)

Inductive ErrorCode := AUTH | RATE_LIMIT | NOT_FOUND | UPSTREAM | BAD_RESPONSE | NETWORK.

#[global] Instance ErrorCode_eq_dec : EqDecision ErrorCode.
Proof. solve_decision. Defined.

Record ProviderError := {
  provider : ProviderName;
  code : ErrorCode;
  message : string;
  status : option Z;
}.

(** What a [throw] carries: a [ProviderError], or any other value. *)
Inductive Thrown :=
  | ThrownProviderError (e : ProviderError)
  | ThrownOther.

(** How an awaited call settles. *)
Inductive Result (A : Type) :=
  | Returned (a : A)
  | Threw (t : Thrown).
Arguments Returned {A} a.
Arguments Threw {A} t.

#[global] Instance Result_ret : MRet Result := λ A a, Returned a.
#[global] Instance Result_bind : MBind Result := λ A B k r,
  match r with
  | Returned a => k a
  | Threw t => Threw t
  end.

(** The price of the quote a call returned, if it returned one. *)
Definition returned_price (r : Result (option NormalizedQuote)) : option float :=
  match r with
  | Returned (Some q) => Some (price q)
  | _ => None
  end.

Definition mapStatusToCode (status : Z) : ErrorCode :=
  if decide (status = 401 ∨ status = 403)%Z then AUTH
  else if decide (status = 404)%Z then NOT_FOUND
  else if decide (status = 429)%Z then RATE_LIMIT
  else UPSTREAM.

(** ** String built-ins *)

Module JsString.

(** [s.includes(needle)]. *)
Fixpoint includes (s needle : string) : bool :=
  String.prefix needle s
  || match s with
     | EmptyString => false
     | String _ rest => includes rest needle
     end.

(** A string in a boolean position: true unless empty. *)
Definition truthy (s : option string) : bool :=
  match s with
  | None => false
  | Some s => negb (bool_decide (s = ""))
  end.

(** [s.toLowerCase()] is the host's (it is Unicode-aware). *)
Class Text := {
  toLowerCase : string → string;
}.

(** [toLowerCase] on a string of ASCII characters. *)
Definition ascii_lower (a : ascii) : ascii :=
  let n := nat_of_ascii a in
  if (65 <=? n)%nat && (n <=? 90)%nat then ascii_of_nat (n + 32) else a.

Fixpoint ascii_toLowerCase (s : string) : string :=
  match s with
  | EmptyString => EmptyString
  | String a rest => String (ascii_lower a) (ascii_toLowerCase rest)
  end.

Definition ascii_text : Text := {| toLowerCase := ascii_toLowerCase |}.

End JsString.

Import JsString.

(** ** HTTP ([build/providers/http.js]) *)

Module Http.

(** How the exchange behind [fetch(url, ...)] and [response.text()] went.
    A rejected [fetch] covers the abort that the timeout triggers. *)
Inductive Exchange :=
  | FetchRejected (error_message : string)
  | TextRejected (status : Z) (error_message : string)
  | Responded (status : Z) (raw : string).

(** What the [try] block of [fetchJson] raises: a [ProviderError] of its
    own, or the error of a rejected promise. *)
Inductive Raised :=
  | RaisedProviderError (e : ProviderError)
  | RaisedError (error_message : string).

(** [response.ok]. *)
Definition response_ok (status : Z) : bool :=
  bool_decide (200 ≤ status ≤ 299)%Z.

Section FetchJson.
(** [Json] is the type of parsed bodies; [JSON_parse] is [None] where
    [JSON.parse] throws; [empty_object] is [{}]. *)
Context {Json : Type}.
Variable JSON_parse : string → option Json.
Variable empty_object : Json.

(** The body [fetchJson] goes on with: [{}] for an empty text, else the
    parsed text; [None] where parsing throws. *)
Definition body_of (raw : string) : option Json :=
  if bool_decide (raw = "") then Some empty_object else JSON_parse raw.

Definition fetchJson_try (provider : ProviderName) (exchange : Exchange)
    : Json + Raised :=
  match exchange with
  | FetchRejected error_message => inr (RaisedError error_message)
  | TextRejected _ error_message => inr (RaisedError error_message)
  | Responded status raw =>
      match
        (if bool_decide (raw = "") then inl empty_object
         else match JSON_parse raw with
              | Some parsed => inl parsed
              | None =>
                  inr (RaisedProviderError
                         {| provider := provider; code := BAD_RESPONSE;
                            message := "Provider returned non-JSON content.";
                            status := Some status |})
              end)
      with
      | inr raised => inr raised
      | inl parsed =>
          if negb (response_ok status) then
            inr (RaisedProviderError
                   {| provider := provider; code := mapStatusToCode status;
                      message := "Provider request failed with status "
                                 +:+ pretty status +:+ ".";
                      status := Some status |})
          else inl parsed
      end
  end.

(** The [catch] block rethrows a [ProviderError] and wraps anything else. *)
Definition fetchJson (provider : ProviderName) (exchange : Exchange) : Result Json :=
  match fetchJson_try provider exchange with
  | inl parsed => Returned parsed
  | inr (RaisedProviderError error) => Threw (ThrownProviderError error)
  | inr (RaisedError error_message) =>
      Threw (ThrownProviderError
               {| provider := provider; code := NETWORK;
                  message := "Provider request failed: " +:+ error_message;
                  status := None |})
  end.

End FetchJson.

(** The exchange did not produce a response body. *)
Definition transport_failed (exchange : Exchange) : bool :=
  match exchange with
  | Responded _ _ => false
  | _ => true
  end.

(** A parser for sample exchanges: it reads the text of the empty object
    and rejects any other text. *)
Definition braces_only (raw : string) : option (list (string * string)) :=
  if bool_decide (raw = "{}") then Some [] else None.

End Http.

(** ** Finnhub adapter ([src/providers/finnhub.ts])

    Each method awaits [this.request(...)] and normalizes what it returns;
    [upstream] is how that request settled. *)

Module FinnhubClient.

(** [!x] and the operand conversion for a field of type
    [number | undefined]. *)
Definition not_number (x : option float) : bool :=
  match x with
  | None => true
  | Some v => falsy v
  end.

Definition to_operand (x : option float) : float := default nan x.

(** [!xs?.length] for a field of type [T[] | undefined]. *)
Definition no_length {A : Type} (xs : option (list A)) : bool :=
  match xs with
  | None | Some [] => true
  | Some (_ :: _) => false
  end.

(** [xs?.[index]]. *)
Definition opt_at {A : Type} (xs : option (list A)) (index : nat) : option A :=
  xs ≫= (λ l, l !! index).

(** The [/quote] payload. *)
Record QuotePayload := {
  quote_c : option float;
  quote_d : option float;
  quote_dp : option float;
  quote_h : option float;
  quote_l : option float;
  quote_o : option float;
  quote_pc : option float;
  quote_t : option Z;
}.

Definition getQuote (symbol : string) (upstream : Result QuotePayload)
    : Result (option NormalizedQuote) :=
  data ← upstream;
  if not_number (quote_c data) || (to_operand (quote_c data) <=? 0)%float
  then mret None
  else
    let c := to_operand (quote_c data) in
    mret (Some {|
      q_symbol := symbol;
      price := c;
      change := nullish (quote_d data) 0%float;
      percentChange := nullish (quote_dp data) 0%float;
      q_high := nullish (quote_h data) c;
      q_low := nullish (quote_l data) c;
      q_open := nullish (quote_o data) c;
      previousClose := nullish (quote_pc data) c;
      q_timestamp := quote_t data;
      q_source := finnhub;
    |}).

(** The [/stock/candle] payload. *)
Record CandlePayload := {
  candle_c : option (list float);
  candle_h : option (list float);
  candle_l : option (list float);
  candle_o : option (list float);
  candle_t : option (list Z);
  candle_v : option (list float);
  candle_s : option string;
}.

(** [from] and [to] go into the request's query only. *)
Definition getCandles (symbol : string) (interval : Interval) (from to : Z)
    (upstream : Result CandlePayload) : Result (option (list NormalizedCandle)) :=
  data ← upstream;
  if bool_decide (candle_s data = None ∨ candle_s data = Some "")
     || bool_decide (candle_s data ≠ Some "ok")
     || no_length (candle_t data)
  then mret None
  else
    mret (Some (imap (λ index timestamp, {|
      timestamp := timestamp;
      open := nullish (opt_at (candle_o data) index) 0%float;
      high := nullish (opt_at (candle_h data) index) 0%float;
      low := nullish (opt_at (candle_l data) index) 0%float;
      close := nullish (opt_at (candle_c data) index) 0%float;
      volume := nullish (opt_at (candle_v data) index) 0%float;
    |}) (default [] (candle_t data)))).

(** The [/indicator] payload for MACD. *)
Record MacdPayload := {
  ind_s : option string;
  ind_t : option (list Z);
  ind_macd : option (list float);
  ind_signal : option (list float);
  ind_histogram : option (list float);
}.

(** A point before the [typeof ... === "number"] filter. *)
Record RawMacdPoint := {
  raw_timestamp : Z;
  raw_macd : option float;
  raw_signal : option float;
  raw_histogram : float;
}.

(** The filter keeps a point when both [macd] and [signal] are numbers;
    the kept point is the same object. *)
Definition keep_point (point : RawMacdPoint) : option NormalizedMacdPoint :=
  match raw_macd point, raw_signal point with
  | Some m, Some s =>
      Some {| macd_timestamp := raw_timestamp point; macd := m; signal := s;
              histogram := raw_histogram point |}
  | _, _ => None
  end.

Definition getMacd (symbol : string) (interval : Interval) (from to : Z)
    (fastPeriod slowPeriod signalPeriod : nat)
    (upstream : Result MacdPayload) : Result (option (list NormalizedMacdPoint)) :=
  data ← upstream;
  if bool_decide (ind_s data ≠ Some "ok")
     || no_length (ind_t data) || no_length (ind_macd data) || no_length (ind_signal data)
  then mret None
  else
    mret (Some (omap keep_point
      (imap (λ index timestamp, {|
         raw_timestamp := timestamp;
         raw_macd := opt_at (ind_macd data) index;
         raw_signal := opt_at (ind_signal data) index;
         raw_histogram := nullish (opt_at (ind_histogram data) index) 0%float;
       |}) (default [] (ind_t data))))).

(** A parsed body seen as [T & { error?: string }]. *)
Record Reply (T : Type) := {
  reply_error : option string;
  reply_data : T;
}.
Arguments reply_error {T} _.
Arguments reply_data {T} _.

Definition thrown (c : ErrorCode) (text : string) {T : Type} : Result T :=
  Threw (ThrownProviderError
           {| provider := finnhub; code := c; message := text; status := None |}).

(** [request]: [fetched] is how [fetchJson] settled. *)
Definition request `{Text} {T : Type} (fetched : Result (Reply T)) : Result T :=
  data ← fetched;
  if truthy (reply_error data) then
    let error := nullish (reply_error data) "" in
    let errorText := toLowerCase error in
    if includes errorText "limit" then thrown RATE_LIMIT error
    else if includes errorText "token" || includes errorText "auth" then thrown AUTH error
    else thrown UPSTREAM error
  else mret (reply_data data).

(** [this.request(...)] as a whole: [fetchJson], then the check of the
    body's [error] member. [empty] is [{}] seen as a [T]. *)
Definition request_exchange `{Text} {T : Type}
    (JSON_parse : string → option (Reply T)) (empty : T) (exchange : Http.Exchange)
    : Result T :=
  request (Http.fetchJson JSON_parse {| reply_error := None; reply_data := empty |}
             finnhub exchange).

(** An item of the [/company-news] payload. *)
Record NewsPayload := {
  news_headline : option string;
  news_summary : option string;
  news_url : option string;
  news_item_source : option string;
  news_datetime : option Z;
}.

(** [from] and [to] go into the request's query only; the payload is an
    array, or null. *)
Definition getNews (symbol from to : string) (limit : nat)
    (upstream : Result (option (list NewsPayload)))
    : Result (option (list NormalizedNewsItem)) :=
  data ← upstream;
  let news :=
    take limit
      (filter (λ item, truthy (news_headline item) = true) (nullish data [])) in
  if (length news =? 0)%nat then mret None
  else
    mret (Some ((λ item, {|
      headline := nullish (news_headline item) "Untitled";
      summary := news_summary item;
      url := news_url item;
      news_source := news_item_source item;
      datetime := Some <$> news_datetime item;
    |}) <$> news)).

(** The [/indicator] payload for RSI. *)
Record RsiPayload := {
  rsi_s : option string;
  rsi_t : option (list Z);
  rsi_values : option (list float);
}.

Definition getRsi (symbol : string) (interval : Interval) (from to : Z) (period : nat)
    (upstream : Result RsiPayload) : Result (option (list NormalizedRsiPoint)) :=
  data ← upstream;
  if bool_decide (rsi_s data ≠ Some "ok")
     || no_length (rsi_t data) || no_length (rsi_values data)
  then mret None
  else
    mret (Some (omap (λ point : Z * option float,
                        (λ value, {| rsi_timestamp := point.1; value := value |})
                        <$> point.2)
                  (imap (λ index timestamp, (timestamp, opt_at (rsi_values data) index))
                     (default [] (rsi_t data))))).

(** Sample payloads. A MACD payload that carries no histogram array. *)
Definition macd_without_histogram : MacdPayload :=
  {| ind_s := Some "ok";
     ind_t := Some [1700000000%Z];
     ind_macd := Some [1%float];
     ind_signal := Some [0.5%float];
     ind_histogram := None |}.

(** Two candles, the later one first, with no close and no volume array. *)
Definition candles_without_close : CandlePayload :=
  {| candle_c := None;
     candle_h := Some [12%float; 11%float];
     candle_l := Some [9%float; 8%float];
     candle_o := Some [10%float];
     candle_t := Some [1700086400%Z; 1700000000%Z];
     candle_v := None;
     candle_s := Some "ok" |}.

(** The candle [getCandles] builds at [index] from a payload. *)
Definition candle_at (data : CandlePayload) (index : nat) (timestamp : Z)
    : NormalizedCandle :=
  {| timestamp := timestamp;
     open := nullish (opt_at (candle_o data) index) 0%float;
     high := nullish (opt_at (candle_h data) index) 0%float;
     low := nullish (opt_at (candle_l data) index) 0%float;
     close := nullish (opt_at (candle_c data) index) 0%float;
     volume := nullish (opt_at (candle_v data) index) 0%float |}.

(** An RSI payload with three timestamps and two values. *)
Definition rsi_short_of_values : RsiPayload :=
  {| rsi_s := Some "ok";
     rsi_t := Some [1700000000%Z; 1700086400%Z; 1700172800%Z];
     rsi_values := Some [50%float; 62.5%float] |}.

End FinnhubClient.

(** ** Alpha Vantage adapter ([src/providers/alphavantage.ts]) *)

Module AlphaVantageClient.

Definition ALPHA_INTERVAL (interval : Interval) : string :=
  match interval with
  | I1 => "1min" | I5 => "5min" | I15 => "15min" | I30 => "30min" | I60 => "60min"
  | ID => "daily" | IW => "weekly" | IM => "monthly"
  end.

Section WithRuntime.
Context {rt : Runtime}.

Definition toNumber (value : option string) : option float :=
  match value with
  | None => None
  | Some value =>
      if bool_decide (value = "") then None
      else
        let parsed := Number_parse value in
        if Number_isFinite parsed then Some parsed else None
  end.

(** [Math.floor(new Date(timestamp).getTime() / 1000)], when it is finite. *)
Definition epoch_seconds (timestamp : string) : option Z :=
  (λ ms, ms `div` 1000)%Z <$> Date_getTime timestamp.

Definition parseSeriesEntry (timestamp : string) (values : gmap string string)
    : option NormalizedCandle :=
  match epoch_seconds timestamp with
  | None => None
  | Some seconds =>
      let open := toNumber (values !! "1. open") in
      let high := toNumber (values !! "2. high") in
      let low := toNumber (values !! "3. low") in
      let close := toNumber (values !! "4. close") in
      let volume :=
        nullish (match toNumber (values !! "5. volume") with
                 | Some v => Some v
                 | None => toNumber (values !! "6. volume")
                 end) 0%float in
      match open, high, low, close with
      | Some open, Some high, Some low, Some close =>
          Some {| timestamp := seconds; open := open; high := high; low := low;
                  close := close; volume := volume |}
      | _, _, _, _ => None
      end
  end.

(** [array.sort((a, b) => a.timestamp - b.timestamp)]. The sort is stable,
    so its result is that of inserting the candles one by one, from the last
    to the first, each in front of the first candle already placed that the
    comparator does not put before it ([a.timestamp - b.timestamp <= 0]). *)
Fixpoint insert_candle (x : NormalizedCandle) (sorted : list NormalizedCandle)
    : list NormalizedCandle :=
  match sorted with
  | [] => [x]
  | y :: rest =>
      if (timestamp x - timestamp y <=? 0)%Z then x :: y :: rest
      else y :: insert_candle x rest
  end.

Definition sort_by_timestamp (candles : list NormalizedCandle) : list NormalizedCandle :=
  foldr insert_candle [] candles.

(** A time series member of the payload: the entries of the upstream map
    in [Object.entries] order. *)
Definition Series : Type := list (string * gmap string string).

(** [s.replace("%", "")]: the first ["%"] is removed. *)
Fixpoint remove_first_percent (s : string) : string :=
  match s with
  | EmptyString => EmptyString
  | String a rest =>
      if Ascii.eqb a "%"%char then rest else String a (remove_first_percent rest)
  end.

(** The [GLOBAL_QUOTE] payload. *)
Record QuotePayload := {
  Global_Quote : option (gmap string string);
}.

Definition getQuote (symbol : string) (upstream : Result QuotePayload)
    : Result (option NormalizedQuote) :=
  data ← upstream;
  match Global_Quote data with
  | None => mret None
  | Some quote =>
      match toNumber (quote !! "05. price") with
      | None => mret None
      | Some price =>
          if (price <=? 0)%float then mret None
          else
            mret (Some {|
              q_symbol := symbol;
              price := price;
              change := nullish (toNumber (quote !! "09. change")) 0%float;
              percentChange :=
                nullish
                  (toNumber
                     (Some (remove_first_percent
                              (nullish (quote !! "10. change percent") "0"))))
                  0%float;
              q_high := nullish (toNumber (quote !! "03. high")) price;
              q_low := nullish (toNumber (quote !! "04. low")) price;
              q_open := nullish (toNumber (quote !! "02. open")) price;
              previousClose := nullish (toNumber (quote !! "08. previous close")) price;
              q_timestamp := None;
              q_source := alphavantage;
            |})
      end
  end.

Definition seriesKey (interval : Interval) : string :=
  match interval with
  | I1 | I5 | I15 | I30 | I60 => "Time Series (" +:+ ALPHA_INTERVAL interval +:+ ")"
  | ID => "Time Series (Daily)"
  | IW => "Weekly Time Series"
  | IM => "Monthly Time Series"
  end.

(** The entries of [series] that parse, in upstream order. *)
Definition parsed_entries (series : Series) : list NormalizedCandle :=
  omap (λ '(timestamp, values), parseSeriesEntry timestamp values) series.

Definition in_window (from to : Z) (item : NormalizedCandle) : bool :=
  bool_decide (timestamp item >= from)%Z && bool_decide (timestamp item <= to)%Z.

(** The payload maps the series key to the series. *)
Definition getCandles (symbol : string) (interval : Interval) (from to : Z)
    (upstream : Result (gmap string Series)) : Result (option (list NormalizedCandle)) :=
  data ← upstream;
  match data !! seriesKey interval with
  | None => mret None
  | Some series =>
      mret (Some (sort_by_timestamp
                    (filter (λ item, in_window from to item = true)
                       (parsed_entries series))))
  end.

End WithRuntime.

(** Ascending by timestamp: every candle is no later than every candle
    after it; strictly ascending: it is earlier. *)
Definition ascending (candles : list NormalizedCandle) : Prop :=
  StronglySorted (λ a b, (timestamp a ≤ timestamp b)%Z) candles.

Definition strictly_ascending (candles : list NormalizedCandle) : Prop :=
  StronglySorted (λ a b, (timestamp a < timestamp b)%Z) candles.

(** The host parsers on the strings of the sample payloads below, as
    ECMAScript defines them there: decimal numerals, and ISO 8601 dates
    (a date-only form is midnight UTC). Any other string is taken as
    unparseable. *)
Definition sample_numerals : list (string * float) :=
  [("9", 9); ("10", 10); ("11", 11); ("11.5", 11.5); ("12", 12); ("100", 100);
   ("189.75", 189.75); ("1.25", 1.25); ("0.625", 0.625); ("0", 0);
   ("0.0000", 0); ("-1", -1)]%float.

Definition sample_dates : list (string * Z) :=
  [("2024-01-01", 1704067200000); ("2024-01-02", 1704153600000);
   ("2024-01-02T00:00:00.000Z", 1704153600000);
   ("2024-01-03", 1704240000000); ("2024-01-04", 1704326400000)]%Z.

Fixpoint assoc {A : Type} (key : string) (table : list (string * A)) : option A :=
  match table with
  | [] => None
  | (k, v) :: rest => if String.eqb key k then Some v else assoc key rest
  end.

Definition sample_runtime : Runtime :=
  {| Number_parse := λ s, default nan (assoc s sample_numerals);
     Date_getTime := λ s, assoc s sample_dates |}.

Definition ohlcv (o h l c v : string) : gmap string string :=
  list_to_map [("1. open", o); ("2. high", h); ("3. low", l); ("4. close", c);
               ("5. volume", v)].

(** A daily series out of order, with an entry that has no close and an
    entry before the window that starts on 2024-01-02. *)
Definition unordered_series : Series :=
  [("2024-01-04", ohlcv "11" "12" "10" "11.5" "100");
   ("2024-01-02", ohlcv "9" "10" "9" "10" "100");
   ("2024-01-03", list_to_map [("1. open", "10"); ("2. high", "11"); ("3. low", "9")]);
   ("2024-01-01", ohlcv "9" "9" "9" "9" "100");
   ("2024-01-03", ohlcv "10" "11" "10" "11" "100")].

(** Two keys of one map that name the same instant. *)
Definition same_second_series : Series :=
  [("2024-01-02", ohlcv "9" "10" "9" "10" "100");
   ("2024-01-02T00:00:00.000Z", ohlcv "10" "11" "10" "11" "100")].

Definition daily_payload (series : Series) : gmap string Series :=
  {[ "Time Series (Daily)" := series ]}.

Definition candle (t : Z) (o h l c v : float) : NormalizedCandle :=
  {| timestamp := t; open := o; high := h; low := l; close := c; volume := v |}.

(** A [GLOBAL_QUOTE] payload with the given price string. *)
Definition quote_with_price (price : string) : QuotePayload :=
  {| Global_Quote :=
       Some (list_to_map [("05. price", price); ("09. change", "1.25");
                          ("10. change percent", "0.625%")]) |}.

(** A member of the parsed body, which the source types [unknown]: absent
    ([undefined]), a string, or any other JSON value (a number, a boolean,
    null, an object, an array), of which only its truthiness is observed. *)
Inductive Unknown :=
  | Undefined
  | StringValue (text : string)
  | OtherValue (is_truthy : bool).

(** [typeof member === "string" ? member : undefined]. *)
Definition as_string (member : Unknown) : option string :=
  match member with
  | StringValue text => Some text
  | _ => None
  end.

(** The member as the condition of an [if]. *)
Definition member_truthy (member : Unknown) : bool :=
  match member with
  | Undefined => false
  | StringValue text => truthy (Some text)
  | OtherValue is_truthy => is_truthy
  end.

(** A parsed body ([Record<string, unknown>]) with the three members
    [request] inspects, beside the payload [T]. *)
Record Reply (T : Type) := {
  Note : Unknown;
  Error_Message : Unknown;
  Information : Unknown;
  reply_data : T;
}.
Arguments Note {T} _.
Arguments Error_Message {T} _.
Arguments Information {T} _.
Arguments reply_data {T} _.

Definition alpha_error (c : ErrorCode) (text : string) : ProviderError :=
  {| provider := alphavantage; code := c; message := text; status := None |}.

(** [note ?? errorMessage ?? information ?? "Alpha Vantage returned an error."],
    each of the three being the member when it is a string. *)
Definition error_text {T : Type} (data : Reply T) : string :=
  match as_string (Note data), as_string (Error_Message data),
        as_string (Information data) with
  | Some note, _, _ => note
  | None, Some errorMessage, _ => errorMessage
  | None, None, Some information => information
  | None, None, None => "Alpha Vantage returned an error."
  end.

Definition parseAlphaError `{Text} {T : Type} (data : Reply T) : ProviderError :=
  let note := as_string (Note data) in
  let errorMessage := as_string (Error_Message data) in
  let text := error_text data in
  if from_option (λ note, includes (toLowerCase note) "frequency") false note
  then alpha_error RATE_LIMIT text
  else if includes (toLowerCase text) "api key" then alpha_error AUTH text
  else if includes (toLowerCase text) "invalid api call" then alpha_error UPSTREAM text
  else if truthy errorMessage then alpha_error NOT_FOUND text
  else alpha_error UPSTREAM text.

(** [request]: [fetched] is how [fetchJson] settled. The guard tests the
    members as they are, strings or not. *)
Definition request `{Text} {T : Type} (fetched : Result (Reply T)) : Result T :=
  data ← fetched;
  if member_truthy (Note data) || member_truthy (Error_Message data)
     || member_truthy (Information data)
  then Threw (ThrownProviderError (parseAlphaError data))
  else mret (reply_data data).

(** [this.request(...)] as a whole: [fetchJson], then the check of the
    three members. [empty] is [{}] seen as a [T]. *)
Definition request_exchange `{Text} {T : Type}
    (JSON_parse : string → option (Reply T)) (empty : T) (exchange : Http.Exchange)
    : Result T :=
  request (Http.fetchJson JSON_parse
             {| Note := Undefined; Error_Message := Undefined;
                Information := Undefined; reply_data := empty |}
             alphavantage exchange).

(** An item of the [NEWS_SENTIMENT] feed. *)
Record FeedItem := {
  feed_title : option string;
  feed_summary : option string;
  feed_url : option string;
  feed_source : option string;
  time_published : option string;
}.

(** [limit] goes into the request's query only. *)
Definition getNews {rt : Runtime} (symbol : string) (limit : nat)
    (upstream : Result (option (list FeedItem)))
    : Result (option (list NormalizedNewsItem)) :=
  feed ← upstream;
  match feed with
  | None | Some [] => mret None
  | Some feed =>
      mret (Some ((λ item, {|
        headline := nullish (feed_title item) "Untitled";
        summary := feed_summary item;
        url := feed_url item;
        news_source := feed_source item;
        datetime := epoch_seconds <$> time_published item;
      |}) <$> feed))
  end.

(** Every number of a candle is finite. *)
Definition finite_candle (c : NormalizedCandle) : Prop :=
  PrimFloat.is_finite (open c) = true ∧ PrimFloat.is_finite (high c) = true
  ∧ PrimFloat.is_finite (low c) = true ∧ PrimFloat.is_finite (close c) = true
  ∧ PrimFloat.is_finite (volume c) = true.

(** Every number of a quote is finite. *)
Definition finite_quote (q : NormalizedQuote) : Prop :=
  PrimFloat.is_finite (price q) = true ∧ PrimFloat.is_finite (change q) = true
  ∧ PrimFloat.is_finite (percentChange q) = true
  ∧ PrimFloat.is_finite (q_high q) = true ∧ PrimFloat.is_finite (q_low q) = true
  ∧ PrimFloat.is_finite (q_open q) = true
  ∧ PrimFloat.is_finite (previousClose q) = true.

End AlphaVantageClient.

(** ** Fallback orchestrator (the server entry point) *)

Module Orchestrator.

Definition toUserErrorMessage (tool : string) (errors : list ProviderError)
    (hadNoData : bool) : string :=
  let hasRateLimit := existsb (λ error, bool_decide (code error = RATE_LIMIT)) errors in
  let hasAuth := existsb (λ error, bool_decide (code error = AUTH)) errors in
  let hasNotFound := existsb (λ error, bool_decide (code error = NOT_FOUND)) errors in
  if hasRateLimit then
    tool +:+ " failed: provider rate limit reached. Try again shortly or add higher-tier API keys."
  else if hasAuth then
    tool +:+ " failed: missing or invalid API key. Check FINNHUB_API_KEY and ALPHAVANTAGE_API_KEY."
  else if hasNotFound || hadNoData then
    tool +:+ " failed: symbol may be unsupported or unavailable for this request window."
  else
    tool +:+ " failed due to provider/network errors. Try again in a moment.".

(** Which of the two fetchers a call went to. *)
Inductive Attempt := Primary | Fallback.

Section Execute.
(** [W] is the state of the world the fetchers act on (the network); [T] is
    the type of the data, an object or array type at every call site, so
    that [if (data)] is the test for non-null. *)
Context {W T : Type}.

(** A fetcher: a zero-argument asynchronous function. Awaiting it changes
    the world and settles with data, with null, or by throwing. *)
Definition Fetcher : Type := W → Result (option T) * W.

(** The world, and the log of the fetcher calls made so far. *)
Record Io := {
  world : W;
  calls : list Attempt;
}.

Definition M (A : Type) : Type := Io → A * Io.
Definition ret {A : Type} (a : A) : M A := λ io, (a, io).
Definition bind {A B : Type} (m : M A) (k : A → M B) : M B :=
  λ io, let '(a, io') := m io in k a io'.

(** [await fetch()], the call logged. *)
Definition invoke (who : Attempt) (fetch : Fetcher) : M (Result (option T)) :=
  λ io, let '(r, w) := fetch (world io) in
        (r, {| world := w; calls := calls io ++ [who] |}).

Record Args := {
  toolName : string;
  primary : option Fetcher;
  fallback : option Fetcher;
}.

Record Outcome := {
  data : option T;
  source : option string;
  warning : option string;
  error : option string;
}.

(** Each [if (args.x) { try ... catch ... }] block either returns from the
    function ([inl]) or falls through with the local variables ([inr]). *)
Definition executeWithFallback (args : Args) : M Outcome :=
  bind
    (match primary args with
     | Some fetch =>
         bind (invoke Primary fetch) (λ settled,
           match settled with
           | Returned (Some data) =>
               ret (inl {| data := Some data; source := Some "Finnhub";
                           warning := None; error := None |})
           | Returned None => ret (inr ([], true))
           | Threw (ThrownProviderError error) => ret (inr ([error], false))
           | Threw ThrownOther => ret (inr ([], false))
           end)
     | None => ret (inr ([], false))
     end)
    (λ after_primary,
       match after_primary with
       | inl outcome => ret outcome
       | inr (errors, primaryNoData) =>
           bind
             (match fallback args with
              | Some fetch =>
                  bind (invoke Fallback fetch) (λ settled,
                    match settled with
                    | Returned (Some data) =>
                        ret (inl {|
                          data := Some data;
                          source := Some "Alpha Vantage";
                          warning :=
                            if negb (length errors =? 0)%nat
                            then Some "Used fallback provider due to primary provider error."
                            else if primaryNoData
                            then Some "Used fallback provider because primary returned no data."
                            else None;
                          error := None |})
                    | Returned None => ret (inr errors)
                    | Threw (ThrownProviderError error) => ret (inr (errors ++ [error]))
                    | Threw ThrownOther => ret (inr errors)
                    end)
              | None => ret (inr errors)
              end)
             (λ after_fallback,
                match after_fallback with
                | inl outcome => ret outcome
                | inr errors =>
                    ret {| data := None; source := None; warning := None;
                           error := Some (toUserErrorMessage (toolName args) errors
                                            primaryNoData) |}
                end)
       end).

(** The [ProviderError] a settled call contributes to [errors]. *)
Definition recorded (settled : Result (option T)) : list ProviderError :=
  match settled with
  | Threw (ThrownProviderError e) => [e]
  | _ => []
  end.

(** The call gave no data: it returned null or threw. *)
Definition no_data (settled : Result (option T)) : bool :=
  match settled with
  | Returned (Some _) => false
  | _ => true
  end.

(** The call returned null. *)
Definition returned_null (settled : Result (option T)) : bool :=
  match settled with
  | Returned None => true
  | _ => false
  end.

End Execute.

Arguments Fetcher : clear implicits.
Arguments Io : clear implicits.
Arguments Args : clear implicits.
Arguments Outcome : clear implicits.

(** The four terminal messages. *)
Definition rate_limit_message (tool : string) : string :=
  tool +:+ " failed: provider rate limit reached. Try again shortly or add higher-tier API keys.".
Definition auth_message (tool : string) : string :=
  tool +:+ " failed: missing or invalid API key. Check FINNHUB_API_KEY and ALPHAVANTAGE_API_KEY.".
Definition unavailable_message (tool : string) : string :=
  tool +:+ " failed: symbol may be unsupported or unavailable for this request window.".
Definition generic_message (tool : string) : string :=
  tool +:+ " failed due to provider/network errors. Try again in a moment.".

(** The outcome of a terminal failure. *)
Definition failure {T : Type} (message : string) : Outcome T :=
  {| data := None; source := None; warning := None; error := Some message |}.

(** Sample fetchers over a world that has no state. *)
Definition provider_error (who : ProviderName) (c : ErrorCode) : ProviderError :=
  {| provider := who; code := c; message := "Provider request failed."; status := None |}.
Definition throws (who : ProviderName) (c : ErrorCode) : Fetcher () string :=
  λ w, (Threw (ThrownProviderError (provider_error who c)), w).
Definition resolves_null : Fetcher () string := λ w, (Returned None, w).
Definition resolves (data : string) : Fetcher () string := λ w, (Returned (Some data), w).
Definition start : Io () := {| world := (); calls := [] |}.

Section ExecuteMore.
Context {W T : Type}.

(** The warning that goes with data from the fallback, by how the primary
    settled. *)
Definition fallback_warning (settled : Result (option T)) : option string :=
  match settled with
  | Threw (ThrownProviderError _) =>
      Some "Used fallback provider due to primary provider error."
  | Returned None => Some "Used fallback provider because primary returned no data."
  | _ => None
  end.

(** The primary is not configured, or its call gives no data. *)
Definition primary_gave_no_data (args : Args W T) (io : Io W) : bool :=
  match primary args with
  | None => true
  | Some fetch => no_data (fetch (world io)).1
  end.

(** The world the fallback is called in. *)
Definition world_after_primary (args : Args W T) (io : Io W) : W :=
  match primary args with
  | None => world io
  | Some fetch => (fetch (world io)).2
  end.

(** A fetcher is configured. *)
Definition configured (fetch : option (Fetcher W T)) : bool :=
  match fetch with Some _ => true | None => false end.

(** The calls of a run: the primary when it is configured, then the
    fallback when it is configured and the primary gave no data. *)
Definition expected_calls (args : Args W T) (io : Io W) : list Attempt :=
  (if configured (primary args) then [Primary] else [])
  ++ (if configured (fallback args) && primary_gave_no_data args io
      then [Fallback] else []).
End ExecuteMore.

(** A primary that throws something that is no [ProviderError]. *)
Definition throws_other : Fetcher () string := λ w, (Threw ThrownOther, w).

End Orchestrator.

(** ** The tools of the server entry point *)

Module Server.
Import Orchestrator.

(** [{}] as each adapter's quote payload. *)
Definition empty_finnhub_quote : FinnhubClient.QuotePayload :=
  {| FinnhubClient.quote_c := None; FinnhubClient.quote_d := None;
     FinnhubClient.quote_dp := None; FinnhubClient.quote_h := None;
     FinnhubClient.quote_l := None; FinnhubClient.quote_o := None;
     FinnhubClient.quote_pc := None; FinnhubClient.quote_t := None |}.

Definition empty_alpha_quote : AlphaVantageClient.QuotePayload :=
  {| AlphaVantageClient.Global_Quote := None |}.

Section Quotes.
(** The world is the network: [exchange_with who w] is the HTTP exchange
    the next request to [who] gets in [w], and the world after it. The two
    [parse_...] read a body as the adapter's payload type. *)
Context {W : Type} `{Text} {rt : Runtime}.
Variable exchange_with : ProviderName → W → Http.Exchange * W.
Variable parse_finnhub :
  string → option (FinnhubClient.Reply FinnhubClient.QuotePayload).
Variable parse_alpha :
  string → option (AlphaVantageClient.Reply AlphaVantageClient.QuotePayload).

(** [() => finnhubClient.getQuote(symbol)]. *)
Definition finnhub_quote (symbol : string) : Fetcher W NormalizedQuote :=
  λ w, let '(exchange, w') := exchange_with finnhub w in
       (FinnhubClient.getQuote symbol
          (FinnhubClient.request_exchange parse_finnhub empty_finnhub_quote exchange),
        w').

(** [() => alphaVantageClient.getQuote(symbol)]. *)
Definition alpha_quote (symbol : string) : Fetcher W NormalizedQuote :=
  λ w, let '(exchange, w') := exchange_with alphavantage w in
       (AlphaVantageClient.getQuote symbol
          (AlphaVantageClient.request_exchange parse_alpha empty_alpha_quote exchange),
        w').

(** The [executeWithFallback] call of the [get_quote] tool; a client exists
    when its API key is configured. *)
Definition get_quote_fetch (finnhub_key alpha_key : bool) (symbol : string)
    : M (Outcome NormalizedQuote) :=
  executeWithFallback
    {| toolName := "get_quote";
       primary := if finnhub_key then Some (finnhub_quote symbol) else None;
       fallback := if alpha_key then Some (alpha_quote symbol) else None |}.
End Quotes.

(** A sample network without state: Finnhub answers 429 with an empty
    body, Alpha Vantage answers 200 with a quote. *)
Definition finnhub_rate_limited (who : ProviderName) (w : ()) : Http.Exchange * () :=
  match who with
  | finnhub => (Http.Responded 429 "", w)
  | alphavantage => (Http.Responded 200 "{ quote }", w)
  end.

Definition parse_nothing
    : string → option (FinnhubClient.Reply FinnhubClient.QuotePayload) :=
  λ _, None.

Definition parse_sample_quote
    : string → option (AlphaVantageClient.Reply AlphaVantageClient.QuotePayload) :=
  λ _, Some {| AlphaVantageClient.Note := AlphaVantageClient.Undefined;
               AlphaVantageClient.Error_Message := AlphaVantageClient.Undefined;
               AlphaVantageClient.Information := AlphaVantageClient.Undefined;
               AlphaVantageClient.reply_data :=
                 AlphaVantageClient.quote_with_price "189.75" |}.

End Server.

(* ================================================================== *)
(** * Part II: properties                                              *)
(* ================================================================== *)

Import Indicators.

(** ** Loops *)

Lemma for_range_done {S : Type} (start stop : nat) (body : nat → S → S) (init : S) :
  stop ≤ start → for_range start stop body init = init.
Proof.
  intros Hle. unfold for_range.
  replace (stop - start) with 0 by lia. reflexivity.
Qed.

Lemma for_range_snoc {S : Type} (start n : nat) (body : nat → S → S) (init : S) :
  start ≤ n →
  for_range start (Datatypes.S n) body init = body n (for_range start n body init).
Proof.
  intros Hle. unfold for_range.
  replace (Datatypes.S n - start) with (Datatypes.S (n - start)) by lia.
  rewrite seq_S, fold_left_app. simpl.
  replace (start + (n - start)) with n by lia. reflexivity.
Qed.

Lemma for_range_ind {S : Type} (P : nat → S → Prop)
    (start stop : nat) (body : nat → S → S) (init : S) :
  start ≤ stop →
  P start init →
  (∀ i s, start ≤ i < stop → P i s → P (Datatypes.S i) (body i s)) →
  P stop (for_range start stop body init).
Proof.
  intros Hle Hinit Hstep. induction Hle as [|n Hle IH].
  - rewrite for_range_done by lia. exact Hinit.
  - rewrite for_range_snoc by exact Hle. apply Hstep; [lia|].
    apply IH. intros i s Hi. apply Hstep. lia.
Qed.

(** ** Binary64 facts

    The facts below read the IEEE operations through their specification
    on [spec_float]: what the operations do on a zero ([Zero x]: [x] is
    [+0] or [-0]), and that addition commutes. *)

Module FloatFacts.











Lemma SFadd_comm (x y : spec_float) : SF64add x y = SF64add y x.
Proof.
  unfold SF64add, SFadd.
  destruct x as [sx|sx| |sx mx ex], y as [sy|sy| |sy my ey]; try reflexivity;
    try (destruct sx, sy; reflexivity).
  cbv zeta. rewrite (Z.min_comm ey ex). f_equal. apply Z.add_comm.
Qed.

(** IEEE addition commutes. *)
Lemma float_add_comm (x y : float) : (x + y = y + x)%float.
Proof.
  rewrite <- (SF2Prim_Prim2SF (x + y)), <- (SF2Prim_Prim2SF (y + x)).
  rewrite !add_spec. f_equal. apply SFadd_comm.
Qed.

End FloatFacts.

Import FloatFacts.

(** ** EMA *)

Section EmaLoop.
Variables (values : list float) (multiplier seed : float).
Variables (period : nat) (output0 : list (option float)).
Hypothesis period_pos : 1 ≤ period.
Hypothesis output0_length : length output0 = length values.
Hypothesis output0_seed : output0 !! (period - 1) = Some (Some seed).
Hypothesis output0_head : ∀ i, i < period - 1 → output0 !! i = Some None.

Lemma ema_loop_inv (n : nat) :
  period ≤ n → n ≤ length values →
  ema_inv values multiplier seed period n
    (for_range period n (ema_step values multiplier) (seed, output0)).
Proof using period_pos output0_length output0_seed output0_head.
  intros Hle. induction Hle as [|n Hle IH]; intros Hn.
  - rewrite for_range_done by lia. unfold ema_inv; simpl.
    repeat split; auto. intros i Hi. lia.
  - rewrite for_range_snoc by exact Hle.
    destruct (for_range period n (ema_step values multiplier) (seed, output0))
      as [previous output] eqn:Hrun.
    destruct IH as (Hlen & Hprev & Hhead & Hseed & Hrec); [lia|]. simpl in *.
    destruct (lookup_lt_is_Some_2 values n) as [current Hcur]; [lia|].
    unfold ema_step, num_at. rewrite Hcur. simpl.
    unfold ema_inv; simpl. rewrite length_insert.
    split; [exact Hlen|]. split.
    { rewrite Nat.sub_0_r. apply list_lookup_insert_eq. lia. }
    split.
    { intros i Hi. rewrite list_lookup_insert_ne by lia. auto. }
    split.
    { rewrite list_lookup_insert_ne by lia. exact Hseed. }
    intros i Hi. destruct (decide (i = n)) as [->|Hne].
    + exists previous, current. rewrite list_lookup_insert_ne by lia.
      rewrite list_lookup_insert_eq by lia. auto.
    + destruct (Hrec i) as (p & c & Hp & Hc & Hi'); [lia|].
      exists p, c. rewrite !list_lookup_insert_ne by lia. auto.
Qed.
End EmaLoop.

(** C4. For [values.length >= period] (a period of at least 1), [ema]
    returns a sequence as long as its input whose first [period - 1]
    entries are null, whose entry at [period - 1] is the simple mean of the
    first [period] values, and whose later entries follow the recurrence
    [previous + (current - previous) * multiplier] with
    [multiplier = 2 / (period + 1)]; [ema([1,2,3,4,5], 3)] is
    [[null, null, 2, 3, 4]]; and for [values.length < period] the result is
    empty. *)
Theorem ema_spec (values : list float) (period : nat) :
  (1 ≤ period ≤ length values →
     length (ema values period) = length values
     ∧ (∀ i, i < period - 1 → ema values period !! i = Some None)
     ∧ ema values period !! (period - 1)
       = Some (Some (simple_mean (take period values)))
     ∧ ∀ i, period ≤ i < length values →
         ∃ previous current,
           ema values period !! (i - 1) = Some (Some previous)
           ∧ values !! i = Some current
           ∧ ema values period !! i
             = Some (Some (previous
                           + (current - previous) * (2 / (Number_of_nat period + 1)))%float))
  ∧ ema [1; 2; 3; 4; 5]%float 3 = [None; None; Some 2; Some 3; Some 4]%float
  ∧ (length values < period → ema values period = []).
Proof.
  split; [|split].
  - intros [Hpos Hlen]. unfold ema.
    destruct (Nat.ltb_spec (length values) period) as [Hlt|_]; [lia|].
    destruct period as [|p]; [lia|].
    set (seed := (fold_left _ _ _ / _)%float).
    assert (Hseed : seed = simple_mean (take (S p) values)).
    { unfold simple_mean, seed. rewrite length_take.
      replace (S p `min` length values) with (S p) by lia. reflexivity. }
    pose proof (ema_loop_inv values (2 / (Number_of_nat (S p) + 1))%float seed (S p)
                  (<[p := Some seed]> (replicate (length values) None))) as Hinv.
    destruct (Hinv Hpos) with (n := length values)
      as (H1 & _ & H3 & H4 & H5); try lia.
    + rewrite length_insert, length_replicate. reflexivity.
    + replace (S p - 1) with p by lia.
      apply list_lookup_insert_eq. rewrite length_replicate. lia.
    + intros i Hi. rewrite list_lookup_insert_ne by lia.
      apply lookup_replicate_2. lia.
    + rewrite <- Hseed.
      split; [exact H1|]. split; [exact H3|]. split; [exact H4|].
      intros i Hi. destruct (H5 i Hi) as (previous & current & Hp & Hc & Hi').
      exists previous, current. rewrite (float_add_comm previous). auto.
  - vm_compute. reflexivity.
  - intros Hlt. unfold ema.
    destruct (Nat.ltb_spec (length values) period) as [_|Hge]; [reflexivity|lia].
Qed.

(** ** RSI *)

Lemma gains_losses_spec (closes : list float) :
  gains_losses closes
  = ((λ i, Math_max (close_delta closes i) 0) <$> seq 1 (length closes - 1),
     (λ i, Math_max (- close_delta closes i) 0) <$> seq 1 (length closes - 1)).
Proof.
  unfold gains_losses. destruct (decide (length closes = 0)) as [Hz|Hnz].
  - rewrite for_range_done by lia. rewrite Hz. reflexivity.
  - apply (for_range_ind (λ n st,
      st = ((λ i, Math_max (close_delta closes i) 0) <$> seq 1 (n - 1),
            (λ i, Math_max (- close_delta closes i) 0) <$> seq 1 (n - 1)))).
    + lia.
    + reflexivity.
    + intros i [gains losses] Hi Hst. injection Hst as -> ->.
      unfold gain_loss_step.
      replace (S i - 1) with (S (i - 1)) by lia.
      rewrite seq_S, !fmap_app. simpl.
      replace (S (i - 1)) with i by lia. reflexivity.
Qed.

Lemma gains_losses_length (closes : list float) :
  length (gains_losses closes).1 = length closes - 1
  ∧ length (gains_losses closes).2 = length closes - 1.
Proof.
  rewrite gains_losses_spec. simpl.
  rewrite !length_fmap, !length_seq. auto.
Qed.


Lemma rsi_state_length (candles : list NormalizedCandle) (period stop : nat) :
  period ≤ stop → length (rsi_state candles period stop).2 = stop - period.
Proof.
  intros Hle. unfold rsi_state.
  destruct (gains_losses (close <$> candles)) as [gains losses].
  apply (for_range_ind (λ n st, length st.2 = n - period)); [exact Hle|simpl; lia|].
  intros i [[avgGain avgLoss] points] Hi Hlen. simpl in *.
  rewrite length_app, Hlen. simpl. lia.
Qed.

(** C9. [calculateRsiFromCandles] returns [candles.length - (period + 1)]
    points (none when that is not positive): a sequence of exactly
    [period + 1] candles, the shortest that passes the
    [candles.length > period] guard, gives the empty result, and a result
    that is not empty needs [candles.length >= period + 2]. *)
Theorem rsi_point_count (candles : list NormalizedCandle) (period : nat) :
  length (calculateRsiFromCandles candles period) = length candles - (period + 1)
  ∧ (length candles = period + 1 → calculateRsiFromCandles candles period = [])
  ∧ (calculateRsiFromCandles candles period ≠ [] → period + 2 ≤ length candles).
Proof.
  assert (Hlen : length (calculateRsiFromCandles candles period)
                 = length candles - (period + 1)).
  { unfold calculateRsiFromCandles.
    destruct (Nat.leb_spec (length candles) period) as [Hle|Hgt]; [simpl; lia|].
    pose proof (gains_losses_length (close <$> candles)) as [Hg _].
    destruct (gains_losses (close <$> candles)) as [gains losses]. simpl in Hg.
    rewrite length_fmap in Hg.
    rewrite rsi_state_length by lia. lia. }
  split; [exact Hlen|]. split.
  - intros Heq. apply nil_length_inv. rewrite Hlen. lia.
  - intros Hne. destruct (calculateRsiFromCandles candles period) eqn:Hrsi; [done|].
    simpl in Hlen. lia.
Qed.



(** Every period the tool layer admits (an integer from 2 to 100), and 1,
    is usable. *)
Lemma usable_period_tool_range (period : nat) :
  1 ≤ period ≤ 100 → usable_period period = true.
Proof.
  intros Hp.
  assert (Hall : forallb usable_period (seq 1 100) = true) by (vm_compute; reflexivity).
  rewrite forallb_forall in Hall. apply Hall. apply in_seq. lia.
Qed.




(** ** Orchestrator *)

Import Orchestrator.

Lemma existsb_code (c : ErrorCode) (errors : list ProviderError) :
  existsb (λ error, bool_decide (code error = c)) errors = true
  ↔ Exists (λ e, code e = c) errors.
Proof.
  rewrite existsb_exists, Exists_exists. split.
  - intros (e & Hin & He). exists e. split; [apply list_elem_of_In, Hin|].
    apply bool_decide_eq_true in He. exact He.
  - intros (e & Hin & He). exists e. split; [apply list_elem_of_In, Hin|].
    apply bool_decide_eq_true. exact He.
Qed.

Lemma existsb_code_false (c : ErrorCode) (errors : list ProviderError) :
  existsb (λ error, bool_decide (code error = c)) errors = false
  ↔ ¬ Exists (λ e, code e = c) errors.
Proof.
  rewrite <- existsb_code. destruct (existsb _ errors); split; congruence.
Qed.

Lemma toUserErrorMessage_rate_limit (tool : string) (errors : list ProviderError)
    (hadNoData : bool) :
  Exists (λ e, code e = RATE_LIMIT) errors →
  toUserErrorMessage tool errors hadNoData = rate_limit_message tool.
Proof.
  intros Hrl. apply existsb_code in Hrl.
  unfold toUserErrorMessage. rewrite Hrl. reflexivity.
Qed.

Lemma toUserErrorMessage_auth (tool : string) (errors : list ProviderError)
    (hadNoData : bool) :
  ¬ Exists (λ e, code e = RATE_LIMIT) errors →
  Exists (λ e, code e = AUTH) errors →
  toUserErrorMessage tool errors hadNoData = auth_message tool.
Proof.
  intros Hrl Hauth. apply existsb_code_false in Hrl. apply existsb_code in Hauth.
  unfold toUserErrorMessage. rewrite Hrl, Hauth. reflexivity.
Qed.

Lemma toUserErrorMessage_unavailable (tool : string) (errors : list ProviderError)
    (hadNoData : bool) :
  ¬ Exists (λ e, code e = RATE_LIMIT) errors →
  ¬ Exists (λ e, code e = AUTH) errors →
  Exists (λ e, code e = NOT_FOUND) errors ∨ hadNoData = true →
  toUserErrorMessage tool errors hadNoData = unavailable_message tool.
Proof.
  intros Hrl Hauth Hnf.
  apply existsb_code_false in Hrl. apply existsb_code_false in Hauth.
  unfold toUserErrorMessage. rewrite Hrl, Hauth.
  destruct Hnf as [Hnf| ->].
  - apply existsb_code in Hnf. rewrite Hnf. reflexivity.
  - rewrite orb_true_r. reflexivity.
Qed.

Section ExecuteFacts.
Context {W T : Type}.
Implicit Types (fetch : Fetcher W T) (io : Io W) (settled : Result (option T)).

(** Both fetchers configured and neither gives data: both are called, in
    order, and the message is computed from the errors they threw and
    from whether the primary returned null. *)
Lemma executeWithFallback_terminal (tool : string) fetch1 fetch2 io
    settled1 settled2 (w1 w2 : W) :
  fetch1 (world io) = (settled1, w1) →
  fetch2 w1 = (settled2, w2) →
  no_data settled1 = true →
  no_data settled2 = true →
  executeWithFallback
    {| toolName := tool; primary := Some fetch1; fallback := Some fetch2 |} io
  = (failure (toUserErrorMessage tool (recorded settled1 ++ recorded settled2)
                (returned_null settled1)),
     {| world := w2; calls := calls io ++ [Primary; Fallback] |}).
Proof.
  intros H1 H2 Hn1 Hn2.
  unfold executeWithFallback, bind, invoke, ret, failure. simpl. rewrite H1.
  destruct settled1 as [[d1|]|[e1|]]; try discriminate; simpl; rewrite H2;
    destruct settled2 as [[d2|]|[e2|]]; try discriminate; simpl;
    rewrite <- app_assoc; reflexivity.
Qed.
End ExecuteFacts.

(** C1. When both fetchers are configured and neither gives data, a
    recorded [ProviderError] with code RATE_LIMIT, thrown by either
    fetcher, makes the terminal error the rate-limit message whatever
    else was recorded; with no RATE_LIMIT and some AUTH error recorded it
    is the auth message. *)
Theorem rate_limit_then_auth_priority {W T : Type} (tool : string)
    (fetch1 fetch2 : Fetcher W T) (io : Io W)
    (settled1 settled2 : Result (option T)) (w1 w2 : W) :
  fetch1 (world io) = (settled1, w1) →
  fetch2 w1 = (settled2, w2) →
  no_data settled1 = true →
  no_data settled2 = true →
  ∃ outcome io',
    executeWithFallback
      {| toolName := tool; primary := Some fetch1; fallback := Some fetch2 |} io
    = (outcome, io')
    ∧ data outcome = None
    ∧ (Exists (λ e, code e = RATE_LIMIT) (recorded settled1 ++ recorded settled2) →
       error outcome = Some (rate_limit_message tool))
    ∧ (¬ Exists (λ e, code e = RATE_LIMIT) (recorded settled1 ++ recorded settled2) →
       Exists (λ e, code e = AUTH) (recorded settled1 ++ recorded settled2) →
       error outcome = Some (auth_message tool)).
Proof.
  intros H1 H2 Hn1 Hn2.
  rewrite (executeWithFallback_terminal tool _ _ _ _ _ _ _ H1 H2 Hn1 Hn2).
  eexists _, _. split; [reflexivity|]. simpl. split; [reflexivity|]. split.
  - intros Hrl. f_equal. apply toUserErrorMessage_rate_limit, Hrl.
  - intros Hrl Hauth. f_equal. apply toUserErrorMessage_auth; assumption.
Qed.

(** The primary throws RATE_LIMIT and the fallback throws NOT_FOUND: the
    message is the rate-limit one, not the fallback's. *)
Lemma rate_limit_then_auth_priority_witness :
  error (executeWithFallback
           {| toolName := "get_quote";
              primary := Some (throws finnhub RATE_LIMIT);
              fallback := Some (throws alphavantage NOT_FOUND) |} start).1
  = Some (rate_limit_message "get_quote").
Proof.
  destruct (rate_limit_then_auth_priority "get_quote"
              (throws finnhub RATE_LIMIT) (throws alphavantage NOT_FOUND) start
              _ _ () () eq_refl eq_refl eq_refl eq_refl)
    as (outcome & io' & Hrun & _ & Hrl & _).
  rewrite Hrun. simpl. apply Hrl. apply Exists_cons_hd. reflexivity.
Defined.

(** What the code does for the no-data message: with no RATE_LIMIT and no
    AUTH error recorded, a recorded NOT_FOUND error or a null result of the
    primary fetcher gives the "unsupported or unavailable" message. A null
    result of the fallback fetcher is not recorded anywhere. *)
Lemma unavailable_message_from_primary {W T : Type} (tool : string)
    (fetch1 fetch2 : Fetcher W T) (io : Io W)
    (settled1 settled2 : Result (option T)) (w1 w2 : W) :
  fetch1 (world io) = (settled1, w1) →
  fetch2 w1 = (settled2, w2) →
  no_data settled1 = true →
  no_data settled2 = true →
  ¬ Exists (λ e, code e = RATE_LIMIT) (recorded settled1 ++ recorded settled2) →
  ¬ Exists (λ e, code e = AUTH) (recorded settled1 ++ recorded settled2) →
  Exists (λ e, code e = NOT_FOUND) (recorded settled1 ++ recorded settled2)
  ∨ returned_null settled1 = true →
  (executeWithFallback
     {| toolName := tool; primary := Some fetch1; fallback := Some fetch2 |} io).1
  = failure (unavailable_message tool).
Proof.
  intros H1 H2 Hn1 Hn2 Hrl Hauth Hnf.
  rewrite (executeWithFallback_terminal tool _ _ _ _ _ _ _ H1 H2 Hn1 Hn2). simpl.
  f_equal. apply toUserErrorMessage_unavailable; assumption.
Qed.

(** C2 at its failing inputs. The primary throws a NETWORK error, or is not
    configured, and the fallback returns null: no RATE_LIMIT or AUTH error
    is recorded and a no-data outcome occurred, yet the terminal error is
    the generic provider/network message. When it is the primary that
    returns null, with the same fallback, the message is the "unsupported or
    unavailable" one the claim expects. *)
Theorem fallback_null_gets_generic_message :
  (executeWithFallback
     {| toolName := "get_quote";
        primary := Some (throws finnhub NETWORK);
        fallback := Some resolves_null |} start).1
  = failure (generic_message "get_quote")
  ∧ (executeWithFallback
       {| toolName := "get_quote"; primary := None; fallback := Some resolves_null |}
       start).1
    = failure (generic_message "get_quote")
  ∧ (executeWithFallback
       {| toolName := "get_quote";
          primary := Some resolves_null;
          fallback := Some resolves_null |} start).1
    = failure (unavailable_message "get_quote").
Proof.
  split; [|split].
  - rewrite (executeWithFallback_terminal "get_quote" (throws finnhub NETWORK)
               resolves_null start _ _ () () eq_refl eq_refl eq_refl eq_refl).
    reflexivity.
  - reflexivity.
  - rewrite (executeWithFallback_terminal "get_quote" resolves_null
               resolves_null start _ _ () () eq_refl eq_refl eq_refl eq_refl).
    reflexivity.
Qed.

(** C3. When the primary fetcher resolves to non-null data, the
    orchestrator returns that data with the primary source, no warning and
    no error; the only call logged is the primary's, and the world is as
    the primary left it: the fallback fetcher, whatever it is, is not
    invoked. *)
Theorem primary_data_returns_immediately {W T : Type} (args : Args W T)
    (fetch : Fetcher W T) (io : Io W) (d : T) (w1 : W) :
  primary args = Some fetch →
  fetch (world io) = (Returned (Some d), w1) →
  executeWithFallback args io
  = ({| data := Some d; source := Some "Finnhub"; warning := None; error := None |},
     {| world := w1; calls := calls io ++ [Primary] |}).
Proof.
  intros Hprimary Hfetch.
  unfold executeWithFallback, bind, invoke, ret.
  rewrite Hprimary. simpl. rewrite Hfetch. reflexivity.
Qed.

(** The primary resolves to data; a fallback that would throw is never
    called. *)
Lemma primary_data_returns_immediately_witness :
  executeWithFallback
    {| toolName := "get_quote";
       primary := Some (resolves "quote");
       fallback := Some (throws alphavantage RATE_LIMIT) |} start
  = ({| data := Some "quote"; source := Some "Finnhub"; warning := None; error := None |},
     {| world := (); calls := [Primary] |}).
Proof.
  exact (primary_data_returns_immediately
           {| toolName := "get_quote";
              primary := Some (resolves "quote");
              fallback := Some (throws alphavantage RATE_LIMIT) |}
           (resolves "quote") start "quote" () eq_refl eq_refl).
Defined.

(** ** MACD *)

Lemma calculateMacd_histogram (candles : list NormalizedCandle)
    (fastPeriod slowPeriod signalPeriod : nat) :
  Forall (λ p, histogram p = (macd p - signal p)%float)
    (calculateMacdFromCandles candles fastPeriod slowPeriod signalPeriod).
Proof.
  unfold calculateMacdFromCandles.
  destruct (length candles <? slowPeriod + signalPeriod)%nat; [constructor|].
  destruct (length (ema _ signalPeriod) =? 0)%nat; [constructor|].
  apply (for_range_ind (λ _ st, Forall (λ p, histogram p = (macd p - signal p)%float) st.2)).
  - lia.
  - constructor.
  - intros i [signalCursor output] _ Hall. unfold macd_step. simpl in *.
    destruct (mjoin (_ !! i)) as [m|]; [|exact Hall].
    destruct (mjoin (_ !! signalCursor)) as [sg|]; [|exact Hall].
    simpl. apply Forall_app. split; [exact Hall|].
    constructor; [reflexivity|constructor].
Qed.

Lemma finnhub_getMacd_points (symbol : string) (interval : Interval) (from to : Z)
    (fastPeriod slowPeriod signalPeriod : nat)
    (data : FinnhubClient.MacdPayload) (points : list NormalizedMacdPoint)
    (p : NormalizedMacdPoint) :
  FinnhubClient.getMacd symbol interval from to fastPeriod slowPeriod signalPeriod
    (Returned data) = Returned (Some points) →
  p ∈ points →
  ∃ index,
    FinnhubClient.opt_at (FinnhubClient.ind_t data) index = Some (macd_timestamp p)
    ∧ FinnhubClient.opt_at (FinnhubClient.ind_macd data) index = Some (macd p)
    ∧ FinnhubClient.opt_at (FinnhubClient.ind_signal data) index = Some (signal p)
    ∧ histogram p
      = nullish (FinnhubClient.opt_at (FinnhubClient.ind_histogram data) index) 0%float.
Proof.
  unfold FinnhubClient.getMacd. simpl.
  destruct (_ || _); [discriminate|].
  intros Hret Hin. injection Hret as <-.
  apply list_elem_of_omap in Hin as (raw & Hraw & Hkeep).
  apply list_elem_of_lookup in Hraw as [index Hraw].
  apply list_lookup_imap_Some in Hraw as (timestamp & Ht & ->).
  exists index. unfold FinnhubClient.keep_point in Hkeep. simpl in Hkeep.
  destruct (FinnhubClient.opt_at (FinnhubClient.ind_macd data) index) as [m|];
    [|discriminate].
  destruct (FinnhubClient.opt_at (FinnhubClient.ind_signal data) index) as [sg|];
    [|discriminate].
  injection Hkeep as <-. simpl.
  destruct (FinnhubClient.ind_t data) as [ts|]; simpl in *; [|discriminate].
  auto.
Qed.

(** C6, as stated, fails for the adapter. Finnhub's [getMacd] on a payload
    with macd 1, signal 0.5 and no histogram array returns the point with
    histogram 0, and 0 is not 1 - 0.5. *)
Lemma finnhub_macd_histogram_is_upstream :
  FinnhubClient.getMacd "AAPL" ID 1699000000 1701000000 12 26 9
    (Returned FinnhubClient.macd_without_histogram)
  = Returned (Some [{| macd_timestamp := 1700000000; macd := 1; signal := 0.5;
                       histogram := 0 |}])
  ∧ strict_eq 0 (1 - 0.5) = false
  ∧ (0 ≠ 1 - 0.5)%float.
Proof.
  split; [reflexivity|]. split; [reflexivity|].
  intros Heq. apply (f_equal (λ x, strict_eq x 0)) in Heq.
  vm_compute in Heq. discriminate.
Qed.

(** C6, amended. Every point returned by [calculateMacdFromCandles] has
    [histogram = macd - signal]. A point returned by Finnhub's [getMacd]
    carries the upstream values found at one index of the payload's arrays:
    its histogram is the upstream histogram at that index, or 0 when there
    is none; it is not recomputed from macd and signal. *)
Theorem macd_histogram_invariant :
  (∀ candles fastPeriod slowPeriod signalPeriod,
     Forall (λ p, histogram p = (macd p - signal p)%float)
       (calculateMacdFromCandles candles fastPeriod slowPeriod signalPeriod))
  ∧ (∀ symbol interval from to fastPeriod slowPeriod signalPeriod data points p,
       FinnhubClient.getMacd symbol interval from to fastPeriod slowPeriod signalPeriod
         (Returned data) = Returned (Some points) →
       p ∈ points →
       ∃ index,
         FinnhubClient.opt_at (FinnhubClient.ind_macd data) index = Some (macd p)
         ∧ FinnhubClient.opt_at (FinnhubClient.ind_signal data) index = Some (signal p)
         ∧ histogram p
           = nullish (FinnhubClient.opt_at (FinnhubClient.ind_histogram data) index)
               0%float).
Proof.
  split.
  - intros. apply calculateMacd_histogram.
  - intros symbol interval from to fastPeriod slowPeriod signalPeriod data points p
      Hret Hin.
    destruct (finnhub_getMacd_points _ _ _ _ _ _ _ _ _ _ Hret Hin)
      as (index & _ & Hm & Hs & Hh).
    exists index. auto.
Qed.

(** ** Finnhub candles *)

Lemma finnhub_getCandles_ok (symbol : string) (interval : Interval) (from to : Z)
    (data : FinnhubClient.CandlePayload) (ts : list Z) :
  FinnhubClient.candle_s data = Some "ok" →
  FinnhubClient.candle_t data = Some ts →
  ts ≠ [] →
  FinnhubClient.getCandles symbol interval from to (Returned data)
  = Returned (Some (imap (FinnhubClient.candle_at data) ts)).
Proof.
  intros Hs Ht Hne. unfold FinnhubClient.getCandles. simpl. rewrite Hs, Ht.
  destruct ts as [|t ts]; [done|]. reflexivity.
Qed.

(** C10. On a payload whose status is "ok" and whose timestamp array is
    not empty, Finnhub's [getCandles] returns one candle per timestamp, in
    the upstream order and whatever [from] and [to] are; the candle at an
    index takes its open, high, low, close and volume from that index of the
    upstream arrays, and 0 where an array or an entry is missing. *)
Theorem finnhub_candles_one_per_timestamp (symbol : string) (interval : Interval)
    (from to : Z) (data : FinnhubClient.CandlePayload) (ts : list Z) :
  FinnhubClient.candle_s data = Some "ok" →
  FinnhubClient.candle_t data = Some ts →
  ts ≠ [] →
  ∃ candles,
    FinnhubClient.getCandles symbol interval from to (Returned data)
    = Returned (Some candles)
    ∧ length candles = length ts
    ∧ timestamp <$> candles = ts
    ∧ ∀ index candle, candles !! index = Some candle →
        open candle = nullish (FinnhubClient.opt_at (FinnhubClient.candle_o data) index) 0%float
        ∧ high candle = nullish (FinnhubClient.opt_at (FinnhubClient.candle_h data) index) 0%float
        ∧ low candle = nullish (FinnhubClient.opt_at (FinnhubClient.candle_l data) index) 0%float
        ∧ close candle = nullish (FinnhubClient.opt_at (FinnhubClient.candle_c data) index) 0%float
        ∧ volume candle = nullish (FinnhubClient.opt_at (FinnhubClient.candle_v data) index) 0%float.
Proof.
  intros Hs Ht Hne. exists (imap (FinnhubClient.candle_at data) ts).
  split; [apply finnhub_getCandles_ok; assumption|].
  split; [apply length_imap|]. split.
  - apply list_eq. intros i. rewrite list_lookup_fmap, list_lookup_imap.
    destruct (ts !! i); reflexivity.
  - intros index candle Hc.
    apply list_lookup_imap_Some in Hc as (t & _ & ->). simpl. auto.
Qed.

(** The sample payload lists the later candle first and has no close
    array: the result keeps that order, keeps the candle outside the window
    [1700000000, 1700000001], and has closes of 0. *)
Lemma finnhub_candles_one_per_timestamp_witness :
  ∃ candles,
    FinnhubClient.getCandles "AAPL" ID 1700000000 1700000001
      (Returned FinnhubClient.candles_without_close)
    = Returned (Some candles)
    ∧ timestamp <$> candles = [1700086400; 1700000000]%Z
    ∧ close <$> candles = [0; 0]%float
    ∧ open <$> candles = [10; 0]%float.
Proof.
  destruct (finnhub_candles_one_per_timestamp "AAPL" ID 1700000000 1700000001
              FinnhubClient.candles_without_close [1700086400; 1700000000]%Z
              eq_refl eq_refl ltac:(discriminate))
    as (candles & Hret & _ & _ & _).
  exists candles. split; [exact Hret|].
  simpl in Hret. injection Hret as <-. repeat split.
Defined.

(** ** Quotes *)

Lemma is_nan_false_of_finite (v : float) :
  PrimFloat.is_finite v = true → PrimFloat.is_nan v = false.
Proof.
  unfold PrimFloat.is_finite. intros Hfin.
  apply negb_true_iff, orb_false_iff in Hfin. tauto.
Qed.

(** A number that is not NaN and not [<= 0] is [> 0]. *)
Lemma positive_of_guard (v : float) :
  PrimFloat.is_nan v = false → (v <=? 0)%float = false → (0 <? v)%float = true.
Proof.
  unfold PrimFloat.is_nan. rewrite FloatAxioms.eqb_spec, leb_spec, ltb_spec.
  change (Prim2SF 0) with (S754_zero false).
  destruct (Prim2SF v) as [s|s| |s m e]; simpl; try discriminate;
    destruct s; simpl; try discriminate; reflexivity.
Qed.

Lemma leb_of_is_zero (v : float) :
  PrimFloat.is_zero v = true → (v <=? 0)%float = true.
Proof.
  unfold PrimFloat.is_zero. rewrite FloatAxioms.eqb_spec, leb_spec.
  unfold SFeqb, SFleb. destruct (SFcompare _ _) as [[]|]; congruence.
Qed.

Lemma leb_of_ltb (v : float) :
  (v <? 0)%float = true → (v <=? 0)%float = true.
Proof.
  rewrite ltb_spec, leb_spec.
  unfold SFltb, SFleb. destruct (SFcompare _ _) as [[]|]; congruence.
Qed.

Lemma finnhub_quote_positive (symbol : string)
    (upstream : Result FinnhubClient.QuotePayload) (q : NormalizedQuote) :
  FinnhubClient.getQuote symbol upstream = Returned (Some q) →
  (0 <? price q)%float = true.
Proof.
  destruct upstream as [data|t]; [|discriminate].
  unfold FinnhubClient.getQuote. simpl.
  destruct (FinnhubClient.quote_c data) as [c|] eqn:Hc; simpl; [|discriminate].
  destruct (falsy c) eqn:Hfalsy; simpl; [discriminate|].
  destruct (c <=? 0)%float eqn:Hle; [discriminate|].
  intros Hret. injection Hret as <-. simpl.
  apply orb_false_iff in Hfalsy as [_ Hnan].
  apply positive_of_guard; assumption.
Qed.

Lemma alphavantage_quote_positive {rt : Runtime} (symbol : string)
    (upstream : Result AlphaVantageClient.QuotePayload) (q : NormalizedQuote) :
  AlphaVantageClient.getQuote symbol upstream = Returned (Some q) →
  (0 <? price q)%float = true.
Proof.
  destruct upstream as [data|t]; [|discriminate].
  unfold AlphaVantageClient.getQuote. simpl.
  destruct (AlphaVantageClient.Global_Quote data) as [quote|]; [|discriminate].
  destruct (AlphaVantageClient.toNumber (quote !! "05. price")) as [p|] eqn:Hp;
    [|discriminate].
  destruct (p <=? 0)%float eqn:Hle; [discriminate|].
  intros Hret. injection Hret as <-. simpl.
  apply positive_of_guard; [|exact Hle].
  unfold AlphaVantageClient.toNumber in Hp.
  destruct (quote !! "05. price") as [text|]; [|discriminate].
  destruct (bool_decide (text = "")); [discriminate|].
  destruct (Number_isFinite (Number_parse text)) eqn:Hfin; [|discriminate].
  injection Hp as <-. apply is_nan_false_of_finite. exact Hfin.
Qed.

(** C8. A quote returned by either adapter has [price > 0]. Finnhub's
    [getQuote] returns null when the upstream price [c] is absent, a zero
    or negative; Alpha Vantage's returns null when the payload has no
    "Global Quote", or when its "05. price" field is absent or reads as a
    zero or a negative number. *)
Theorem quote_price_positive :
  (∀ symbol upstream q,
     FinnhubClient.getQuote symbol upstream = Returned (Some q) →
     (0 <? price q)%float = true)
  ∧ (∀ (rt : Runtime) symbol upstream q,
       AlphaVantageClient.getQuote symbol upstream = Returned (Some q) →
       (0 <? price q)%float = true)
  ∧ (∀ symbol data,
       FinnhubClient.quote_c data = None
       ∨ (∃ c, FinnhubClient.quote_c data = Some c
               ∧ (PrimFloat.is_zero c = true ∨ (c <? 0)%float = true)) →
       FinnhubClient.getQuote symbol (Returned data) = Returned None)
  ∧ (∀ (rt : Runtime) symbol,
       AlphaVantageClient.getQuote symbol
         (Returned {| AlphaVantageClient.Global_Quote := None |})
       = Returned None)
  ∧ (∀ (rt : Runtime) symbol quote,
       quote !! "05. price" = None
       ∨ (∃ text, quote !! "05. price" = Some text
                  ∧ (PrimFloat.is_zero (Number_parse text) = true
                     ∨ (Number_parse text <? 0)%float = true)) →
       AlphaVantageClient.getQuote symbol
         (Returned {| AlphaVantageClient.Global_Quote := Some quote |})
       = Returned None).
Proof.
  split; [exact finnhub_quote_positive|].
  split; [exact @alphavantage_quote_positive|]. split; [|split].
  - intros symbol data Hc. unfold FinnhubClient.getQuote. simpl.
    destruct Hc as [->|(c & -> & Hc)]; [reflexivity|]. simpl.
    destruct Hc as [Hz|Hneg].
    + unfold falsy. rewrite Hz. reflexivity.
    + rewrite (leb_of_ltb _ Hneg), orb_true_r. reflexivity.
  - reflexivity.
  - intros rt symbol quote Hp. unfold AlphaVantageClient.getQuote. simpl.
    destruct Hp as [->|(text & -> & Hp)]; [reflexivity|].
    unfold AlphaVantageClient.toNumber.
    destruct (bool_decide (text = "")); [reflexivity|].
    destruct (Number_isFinite (Number_parse text)); [|reflexivity].
    assert (Hle : (Number_parse text <=? 0)%float = true)
      by (destruct Hp; [apply leb_of_is_zero|apply leb_of_ltb]; assumption).
    rewrite Hle. reflexivity.
Qed.

(** Both adapters do return a quote on a positive price, and null on a
    zero price. *)
Example quote_samples :
  returned_price
    (FinnhubClient.getQuote "IBM"
       (Returned {| FinnhubClient.quote_c := Some 189.75%float;
                    FinnhubClient.quote_d := None; FinnhubClient.quote_dp := None;
                    FinnhubClient.quote_h := None; FinnhubClient.quote_l := None;
                    FinnhubClient.quote_o := None; FinnhubClient.quote_pc := None;
                    FinnhubClient.quote_t := None |}))
  = Some 189.75%float
  ∧ returned_price
      (AlphaVantageClient.getQuote (rt := AlphaVantageClient.sample_runtime) "IBM"
         (Returned (AlphaVantageClient.quote_with_price "189.75")))
    = Some 189.75%float
  ∧ AlphaVantageClient.getQuote (rt := AlphaVantageClient.sample_runtime) "IBM"
      (Returned (AlphaVantageClient.quote_with_price "0.0000"))
    = Returned None.
Proof. repeat split; vm_compute; reflexivity. Qed.

(** ** Alpha Vantage candles *)

Import AlphaVantageClient.

Lemma insert_candle_perm (x : NormalizedCandle) (sorted : list NormalizedCandle) :
  insert_candle x sorted ≡ₚ x :: sorted.
Proof.
  induction sorted as [|y rest IH]; simpl; [reflexivity|].
  destruct (timestamp x - timestamp y <=? 0)%Z; [reflexivity|].
  rewrite IH. apply Permutation_swap.
Qed.

Lemma sort_by_timestamp_perm (candles : list NormalizedCandle) :
  sort_by_timestamp candles ≡ₚ candles.
Proof.
  induction candles as [|x rest IH]; simpl; [reflexivity|].
  rewrite insert_candle_perm, IH. reflexivity.
Qed.

Lemma insert_candle_ascending (x : NormalizedCandle) (sorted : list NormalizedCandle) :
  ascending sorted → ascending (insert_candle x sorted).
Proof.
  unfold ascending. intros Hsorted.
  induction Hsorted as [|y rest Hrest IH Hy]; simpl.
  - repeat constructor.
  - destruct (Z.leb_spec (timestamp x - timestamp y) 0) as [Hle|Hgt].
    + constructor; [constructor; assumption|].
      constructor; [lia|].
      eapply Forall_impl; [exact Hy|]. simpl. intros z Hz. lia.
    + constructor; [exact IH|].
      rewrite insert_candle_perm. constructor; [lia|exact Hy].
Qed.

Lemma sort_by_timestamp_ascending (candles : list NormalizedCandle) :
  ascending (sort_by_timestamp candles).
Proof.
  induction candles as [|x rest IH]; simpl.
  - constructor.
  - apply insert_candle_ascending, IH.
Qed.

(** Ascending candles with pairwise distinct timestamps are strictly
    ascending. *)
Lemma ascending_strict (candles : list NormalizedCandle) :
  ascending candles → NoDup (timestamp <$> candles) → strictly_ascending candles.
Proof.
  unfold ascending, strictly_ascending. intros Hsorted.
  induction Hsorted as [|x rest Hrest IH Hx]; intros Hnd; [constructor|].
  rewrite fmap_cons in Hnd. apply NoDup_cons in Hnd as [Hnotin Hnd].
  constructor; [apply IH, Hnd|].
  apply Forall_forall. intros y Hy.
  rewrite Forall_forall in Hx. specialize (Hx y Hy).
  assert (timestamp x ≠ timestamp y).
  { intros Heq. apply Hnotin. rewrite Heq. apply list_elem_of_fmap_2, Hy. }
  lia.
Qed.

Lemma in_window_spec (from to : Z) (item : NormalizedCandle) :
  in_window from to item = true ↔ (from ≤ timestamp item ≤ to)%Z.
Proof.
  unfold in_window. rewrite andb_true_iff, !bool_decide_eq_true. lia.
Qed.

Lemma parsed_entries_elem {rt : Runtime} (series : Series) (c : NormalizedCandle) :
  c ∈ parsed_entries series
  ↔ ∃ key values, (key, values) ∈ series ∧ parseSeriesEntry key values = Some c.
Proof.
  unfold parsed_entries. rewrite list_elem_of_omap. split.
  - intros ([key values] & Hin & Hparse). eauto.
  - intros (key & values & Hin & Hparse). exists (key, values). auto.
Qed.

(** C7, as stated, fails. Two keys of one upstream map may name the same
    second (here a date and the same date written with its time): both
    parse, both are in the window, and the result holds two candles with
    the same timestamp, so it is ascending but not strictly. *)
Lemma alphavantage_same_second_not_strict :
  getCandles (rt := sample_runtime) "IBM" ID 1704067200 1704326400
    (Returned (daily_payload same_second_series))
  = Returned (Some [candle 1704153600 9 10 9 10 100;
                    candle 1704153600 10 11 10 11 100])
  ∧ NoDup same_second_series.*1
  ∧ ¬ strictly_ascending [candle 1704153600 9 10 9 10 100;
                          candle 1704153600 10 11 10 11 100].
Proof.
  split; [vm_compute; reflexivity|]. split.
  - apply (bool_decide_unpack _). vm_compute. exact I.
  - intros Hstrict. inversion Hstrict as [|? ? _ Hhd]; subst.
    inversion Hhd as [|? ? Hlt _]; subst. simpl in Hlt. lia.
Qed.

(** C7, amended. A non-null result of Alpha Vantage's [getCandles] is
    ascending by timestamp (not always strictly) and holds exactly the
    entries of the upstream series that parse and whose timestamp [t] has
    [from <= t <= to], whatever the order of the upstream map; entries that
    do not parse are dropped. It is strictly ascending when no two kept
    entries share a timestamp. *)
Theorem alphavantage_candles_sorted_window {rt : Runtime} (symbol : string)
    (interval : Interval) (from to : Z) (data : gmap string Series)
    (candles : list NormalizedCandle) :
  getCandles symbol interval from to (Returned data) = Returned (Some candles) →
  ∃ series,
    data !! seriesKey interval = Some series
    ∧ ascending candles
    ∧ candles ≡ₚ filter (λ item, in_window from to item = true) (parsed_entries series)
    ∧ (∀ c, c ∈ candles
            ↔ (∃ key values, (key, values) ∈ series
                             ∧ parseSeriesEntry key values = Some c)
              ∧ (from ≤ timestamp c ≤ to)%Z)
    ∧ (NoDup (timestamp <$> filter (λ item, in_window from to item = true)
                              (parsed_entries series)) →
       strictly_ascending candles).
Proof.
  unfold getCandles. simpl.
  destruct (data !! seriesKey interval) as [series|]; [|discriminate].
  intros Hret. injection Hret as <-. exists series.
  split; [reflexivity|].
  split; [apply sort_by_timestamp_ascending|].
  split; [apply sort_by_timestamp_perm|]. split.
  - intros c. rewrite sort_by_timestamp_perm, list_elem_of_filter.
    rewrite in_window_spec, parsed_entries_elem. tauto.
  - intros Hnd. apply ascending_strict; [apply sort_by_timestamp_ascending|].
    rewrite sort_by_timestamp_perm. exact Hnd.
Qed.

(** The sample series is out of order, has an entry without a close and an
    entry before the window: the result is the three entries of the window
    that parse, earliest first. *)
Lemma alphavantage_candles_sorted_window_witness :
  getCandles (rt := sample_runtime) "IBM" ID 1704153600 1704326400
    (Returned (daily_payload unordered_series))
  = Returned (Some [candle 1704153600 9 10 9 10 100;
                    candle 1704240000 10 11 10 11 100;
                    candle 1704326400 11 12 10 11.5 100])
  ∧ ascending [candle 1704153600 9 10 9 10 100;
               candle 1704240000 10 11 10 11 100;
               candle 1704326400 11 12 10 11.5 100]
  ∧ strictly_ascending [candle 1704153600 9 10 9 10 100;
                        candle 1704240000 10 11 10 11 100;
                        candle 1704326400 11 12 10 11.5 100].
Proof.
  assert (Hret : getCandles (rt := sample_runtime) "IBM" ID 1704153600 1704326400
                   (Returned (daily_payload unordered_series))
                 = Returned (Some [candle 1704153600 9 10 9 10 100;
                                   candle 1704240000 10 11 10 11 100;
                                   candle 1704326400 11 12 10 11.5 100]))
    by (vm_compute; reflexivity).
  destruct (alphavantage_candles_sorted_window (rt := sample_runtime) _ _ _ _ _ _ Hret)
    as (series & Hseries & Hasc & _ & _ & Hstrict).
  split; [exact Hret|]. split; [exact Hasc|].
  apply Hstrict.
  vm_compute in Hseries. injection Hseries as <-.
  apply (bool_decide_unpack _). vm_compute. exact I.
Defined.

(** ** Indicators: which candle each point belongs to *)

Lemma rsi_state_timestamps (candles : list NormalizedCandle) (period stop : nat) :
  period ≤ stop ≤ length candles - 1 →
  rsi_timestamp <$> (rsi_state candles period stop).2
  = timestamp <$> take (stop - period) (drop (period + 1) candles).
Proof.
  intros [Hle Hstop]. unfold rsi_state.
  destruct (gains_losses (close <$> candles)) as [gains losses].
  apply (for_range_ind (λ n st, n ≤ length candles - 1 →
           rsi_timestamp <$> st.2
           = timestamp <$> take (n - period) (drop (period + 1) candles)));
    [exact Hle| | |exact Hstop].
  - intros _. simpl. rewrite Nat.sub_diag. reflexivity.
  - intros i [[avgGain avgLoss] points] Hi IH Hn. simpl in *.
    rewrite fmap_app, IH by lia. simpl.
    replace (S i - period) with (S (i - period)) by lia.
    destruct (lookup_lt_is_Some_2 candles (i + 1)) as [c Hc]; [lia|].
    rewrite (take_S_r _ _ c).
    + rewrite fmap_app. simpl. unfold timestamp_at. rewrite Hc. reflexivity.
    + rewrite lookup_drop. rewrite <- Hc. f_equal. lia.
Qed.

(** X1. The RSI points of [calculateRsiFromCandles] carry, in order, the
    timestamps of the candles from index [period + 1] on: the k-th point
    belongs to candle [period + 1 + k], and the last point to the last
    candle. This holds for every input, the empty result included. *)
Theorem rsi_points_follow_candles (candles : list NormalizedCandle) (period : nat) :
  rsi_timestamp <$> calculateRsiFromCandles candles period
  = timestamp <$> drop (period + 1) candles.
Proof.
  unfold calculateRsiFromCandles.
  destruct (Nat.leb_spec (length candles) period) as [Hle|Hgt].
  - rewrite drop_ge by lia. reflexivity.
  - pose proof (gains_losses_length (close <$> candles)) as [Hg _].
    rewrite length_fmap in Hg.
    pose proof (rsi_state_timestamps candles period (length candles - 1)) as Hts.
    destruct (gains_losses (close <$> candles)) as [gains losses]. simpl in Hg.
    rewrite Hg, Hts by lia.
    rewrite take_ge; [reflexivity|]. rewrite length_drop. lia.
Qed.

(** Where [ema] has nulls and where it has numbers. *)
Lemma ema_entries (values : list float) (period : nat) :
  1 ≤ period ≤ length values →
  length (ema values period) = length values
  ∧ (∀ i, i < period - 1 → ema values period !! i = Some None)
  ∧ (∀ i, period - 1 ≤ i < length values →
       ∃ v, ema values period !! i = Some (Some v)).
Proof.
  intros [Hpos Hlen]. unfold ema.
  destruct (Nat.ltb_spec (length values) period) as [Hlt|_]; [lia|].
  destruct period as [|p]; [lia|].
  set (seed := (fold_left _ _ _ / _)%float).
  pose proof (ema_loop_inv values (2 / (Number_of_nat (S p) + 1))%float seed (S p)
                (<[p := Some seed]> (replicate (length values) None))) as Hinv.
  destruct (Hinv Hpos) with (n := length values)
    as (H1 & _ & H3 & H4 & H5); try lia.
  - rewrite length_insert, length_replicate. reflexivity.
  - replace (S p - 1) with p by lia.
    apply list_lookup_insert_eq. rewrite length_replicate. lia.
  - intros i Hi. rewrite list_lookup_insert_ne by lia.
    apply lookup_replicate_2. lia.
  - split; [exact H1|]. split; [exact H3|].
    intros i Hi. destruct (decide (i = S p - 1)) as [->|Hne]; [eauto|].
    destruct (H5 i) as (previous & current & _ & _ & Hi'); [lia|]. eauto.
Qed.

(** The number of entries of a list of optional numbers that are numbers,
    when the nulls are exactly its first [k] entries. *)
Lemma omap_id_after_nulls (l : list (option float)) (k : nat) :
  k ≤ length l →
  (∀ i, i < k → l !! i = Some None) →
  (∀ i, k ≤ i < length l → ∃ v, l !! i = Some (Some v)) →
  length (omap id l) = length l - k.
Proof.
  revert k. induction l as [|x l IH]; intros k Hk Hnull Hnum; [reflexivity|].
  destruct k as [|k].
  - destruct (Hnum 0) as [v Hv]; [simpl; lia|]. simpl in Hv. injection Hv as ->.
    assert (Hrest : length (omap id l) = length l - 0).
    { apply IH; [lia| |].
      - intros i Hi. lia.
      - intros i Hi. apply (Hnum (S i)). simpl. lia. }
    change (omap id (Some v :: l)) with (v :: omap id l). simpl. lia.
  - pose proof (Hnull 0 ltac:(lia)) as H0. simpl in H0. injection H0 as ->.
    change (omap id (None :: l)) with (omap id l). simpl. apply IH.
    + simpl in Hk. lia.
    + intros i Hi. apply (Hnull (S i)). lia.
    + intros i Hi. apply (Hnum (S i)). simpl. lia.
Qed.

Section MacdAlignment.
(** The output loop of [calculateMacdFromCandles], for a MACD line whose
    first [a] entries are null and a signal line whose first [b] entries
    are null. *)
Variables (candles : list NormalizedCandle) (macdLine signalRaw : list (option float)).
Variables (a b : nat).
Hypothesis macdLine_length : length macdLine = length candles.
Hypothesis macdLine_null : ∀ i, i < a → macdLine !! i = Some None.
Hypothesis macdLine_number :
  ∀ i, a ≤ i < length candles → ∃ v, macdLine !! i = Some (Some v).
Hypothesis signalRaw_length : length signalRaw = length candles - a.
Hypothesis signalRaw_null : ∀ j, j < b → signalRaw !! j = Some None.
Hypothesis signalRaw_number :
  ∀ j, b ≤ j < length candles - a → ∃ v, signalRaw !! j = Some (Some v).

Lemma macd_loop_alignment (n : nat) :
  n ≤ length candles →
  let st := for_range 0 n (macd_step candles macdLine signalRaw) (0, []) in
  st.1 = n - a
  ∧ macd_timestamp <$> st.2 = timestamp <$> take (n - (a + b)) (drop (a + b) candles).
Proof using macdLine_length macdLine_null macdLine_number signalRaw_length
  signalRaw_null signalRaw_number.
  intros Hn. simpl.
  apply (for_range_ind (λ n st, n ≤ length candles →
           st.1 = n - a
           ∧ macd_timestamp <$> st.2
             = timestamp <$> take (n - (a + b)) (drop (a + b) candles)));
    [lia| | |exact Hn].
  - intros _. split; reflexivity.
  - intros i [cursor output] Hi IH Hlen. simpl in *.
    destruct IH as [Hcur Hout]; [lia|]. subst cursor.
    unfold macd_step.
    destruct (decide (i < a)) as [Hlt|Hge].
    + rewrite macdLine_null by exact Hlt. simpl.
      split; [lia|]. rewrite Hout.
      replace (S i - (a + b)) with 0 by lia.
      replace (i - (a + b)) with 0 by lia. reflexivity.
    + destruct (macdLine_number i) as [m Hm]; [lia|]. rewrite Hm. simpl.
      destruct (decide (i - a < b)) as [Hlt|Hge'].
      * rewrite signalRaw_null by exact Hlt. simpl.
        split; [lia|]. rewrite Hout.
        replace (S i - (a + b)) with 0 by lia.
        replace (i - (a + b)) with 0 by lia. reflexivity.
      * destruct (signalRaw_number (i - a)) as [sg Hsg]; [lia|]. rewrite Hsg. simpl.
        split; [lia|]. rewrite fmap_app, Hout. simpl.
        replace (S i - (a + b)) with (S (i - (a + b))) by lia.
        destruct (lookup_lt_is_Some_2 candles i) as [c Hc]; [lia|].
        rewrite (take_S_r _ _ c).
        -- rewrite fmap_app. simpl. unfold timestamp_at. rewrite Hc. reflexivity.
        -- rewrite lookup_drop. rewrite <- Hc. f_equal. lia.
Qed.
End MacdAlignment.

(** X2. For periods with [1 <= fastPeriod <= slowPeriod] and
    [1 <= signalPeriod], and at least [slowPeriod + signalPeriod] candles,
    [calculateMacdFromCandles] returns one point for each candle from index
    [slowPeriod + signalPeriod - 2] on, in order and with that candle's
    timestamp: [candles.length - (slowPeriod + signalPeriod - 2)] points,
    hence at least two, the last one for the last candle. *)
Theorem macd_points_follow_candles (candles : list NormalizedCandle)
    (fastPeriod slowPeriod signalPeriod : nat) :
  1 ≤ fastPeriod ≤ slowPeriod →
  1 ≤ signalPeriod →
  slowPeriod + signalPeriod ≤ length candles →
  macd_timestamp <$> calculateMacdFromCandles candles fastPeriod slowPeriod signalPeriod
  = timestamp <$> drop (slowPeriod + signalPeriod - 2) candles.
Proof.
  intros [Hf Hfs] Hg Hlen. unfold calculateMacdFromCandles.
  destruct (Nat.ltb_spec (length candles) (slowPeriod + signalPeriod)) as [Hlt|_]; [lia|].
  set (closes := close <$> candles).
  assert (Hcl : length closes = length candles) by apply length_fmap.
  destruct (ema_entries closes fastPeriod) as (Hfl & Hfn & Hfv); [lia|].
  destruct (ema_entries closes slowPeriod) as (Hsl & Hsn & Hsv); [lia|].
  set (macdLine := imap _ closes).
  assert (Hml : length macdLine = length candles)
    by (unfold macdLine; rewrite length_imap; exact Hcl).
  assert (Hmn : ∀ i, i < slowPeriod - 1 → macdLine !! i = Some None).
  { intros i Hi. unfold macdLine. rewrite list_lookup_imap.
    destruct (lookup_lt_is_Some_2 closes i) as [c ->]; [lia|]. simpl.
    unfold macd_line_at. rewrite (Hsn i Hi). simpl.
    rewrite orb_true_r. reflexivity. }
  assert (Hmv : ∀ i, slowPeriod - 1 ≤ i < length candles →
                     ∃ v, macdLine !! i = Some (Some v)).
  { intros i Hi. unfold macdLine. rewrite list_lookup_imap.
    destruct (lookup_lt_is_Some_2 closes i) as [c ->]; [lia|]. simpl.
    unfold macd_line_at.
    destruct (Hfv i) as [x ->]; [lia|]. destruct (Hsv i) as [y ->]; [lia|].
    simpl. eauto. }
  assert (Hclean : length (omap id macdLine) = length candles - (slowPeriod - 1)).
  { rewrite (omap_id_after_nulls macdLine (slowPeriod - 1)); rewrite ?Hml; auto; lia. }
  destruct (ema_entries (omap id macdLine) signalPeriod) as (Hgl & Hgn & Hgv); [lia|].
  rewrite Hclean in *.
  destruct (Nat.eqb_spec (length (ema (omap id macdLine) signalPeriod)) 0) as [Hz|_];
    [lia|].
  destruct (macd_loop_alignment candles macdLine (ema (omap id macdLine) signalPeriod)
              (slowPeriod - 1) (signalPeriod - 1) Hml Hmn Hmv Hgl Hgn Hgv
              (length macdLine)) as [_ Hts]; [lia|].
  rewrite Hts, Hml.
  replace (slowPeriod - 1 + (signalPeriod - 1)) with (slowPeriod + signalPeriod - 2) by lia.
  rewrite take_ge; [reflexivity|]. rewrite length_drop. lia.
Qed.

(** Six candles with periods 1, 2 and 2: the points are those of the
    candles at indices 2 to 5. *)
Lemma macd_points_follow_candles_witness :
  macd_timestamp <$> calculateMacdFromCandles dip_then_rise 1 2 2 = [3; 4; 5; 6]%Z.
Proof.
  rewrite (macd_points_follow_candles dip_then_rise 1 2 2);
    [reflexivity|lia|lia|simpl; lia].
Defined.

(** ** HTTP ([src/providers/http.ts]) *)

Lemma mapStatusToCode_cases (status : Z) :
  (mapStatusToCode status = AUTH ↔ status = 401 ∨ status = 403)%Z
  ∧ (mapStatusToCode status = NOT_FOUND ↔ status = 404)%Z
  ∧ (mapStatusToCode status = RATE_LIMIT ↔ status = 429)%Z
  ∧ mapStatusToCode status ≠ NETWORK
  ∧ mapStatusToCode status ≠ BAD_RESPONSE.
Proof.
  unfold mapStatusToCode.
  repeat (case_decide; try lia); repeat split; intros; try done; try lia.
Qed.

Section FetchJsonFacts.
Context {Json : Type}.
Variables (JSON_parse : string → option Json) (empty_object : Json).

(** [fetchJson] on an exchange that gave a response body. *)
Lemma fetchJson_responded (who : ProviderName) (st : Z) (raw : string) :
  Http.fetchJson JSON_parse empty_object who (Http.Responded st raw)
  = match Http.body_of JSON_parse empty_object raw with
    | None =>
        Threw (ThrownProviderError
                 {| provider := who; code := BAD_RESPONSE;
                    message := "Provider returned non-JSON content.";
                    status := Some st |})
    | Some parsed =>
        if Http.response_ok st then Returned parsed
        else Threw (ThrownProviderError
                      {| provider := who; code := mapStatusToCode st;
                         message := "Provider request failed with status "
                                    +:+ pretty st +:+ ".";
                         status := Some st |})
    end.
Proof.
  unfold Http.fetchJson, Http.fetchJson_try, Http.body_of.
  case_bool_decide; [|destruct (JSON_parse raw)]; try reflexivity;
    destruct (Http.response_ok st); reflexivity.
Qed.

(** X3. Whatever [fetchJson] throws is a [ProviderError] of the provider
    that was asked. Its code is [NETWORK] exactly when the exchange gave no
    response body ([fetch] or [response.text()] rejected, the timeout's
    abort included), and then it carries no status; an error thrown after
    a response carries the response's status. *)
Theorem fetchJson_rejections_are_typed (who : ProviderName) (exchange : Http.Exchange)
    (t : Thrown) :
  Http.fetchJson JSON_parse empty_object who exchange = Threw t →
  ∃ e, t = ThrownProviderError e
       ∧ provider e = who
       ∧ (code e = NETWORK ↔ Http.transport_failed exchange = true)
       ∧ (∀ st raw, exchange = Http.Responded st raw → status e = Some st)
       ∧ (Http.transport_failed exchange = true → status e = None).
Proof.
  unfold Http.fetchJson, Http.fetchJson_try.
  destruct exchange as [m|st m|st raw]; simpl.
  - intros [= <-]. eexists. repeat split; simpl; auto; discriminate.
  - intros [= <-]. eexists. repeat split; simpl; auto; discriminate.
  - destruct (mapStatusToCode_cases st) as (_ & _ & _ & Hnet & _).
    case_bool_decide; [|destruct (JSON_parse raw)];
      try (destruct (negb (Http.response_ok st)); [|discriminate]);
      intros [= <-]; eexists; repeat split; simpl; auto; try discriminate;
      try (intros [= -> ->]; reflexivity); intros; congruence.
Qed.

(** X4. [fetchJson] returns a value exactly when the exchange gave a
    response with a status from 200 to 299 whose body is empty (the value
    is then the empty object) or parses as JSON (the value is then the
    parsed body). *)
Theorem fetchJson_returns_iff (who : ProviderName) (exchange : Http.Exchange) (v : Json) :
  Http.fetchJson JSON_parse empty_object who exchange = Returned v
  ↔ ∃ st raw, exchange = Http.Responded st raw
              ∧ (200 ≤ st ≤ 299)%Z
              ∧ (raw = "" ∧ v = empty_object ∨ raw ≠ "" ∧ JSON_parse raw = Some v).
Proof.
  split.
  - destruct exchange as [m|st m|st raw]; [discriminate|discriminate|].
    rewrite fetchJson_responded. unfold Http.body_of, Http.response_ok.
    case_bool_decide as Hraw; [|destruct (JSON_parse raw) as [parsed|] eqn:Hp];
      try discriminate; case_bool_decide as Hok; try discriminate;
      intros [= <-]; exists st, raw; auto.
  - intros (st & raw & -> & Hok & Hbody). rewrite fetchJson_responded.
    unfold Http.body_of, Http.response_ok. rewrite (bool_decide_eq_true_2 _ Hok).
    destruct Hbody as [[-> ->]|[Hraw Hp]].
    + reflexivity.
    + rewrite (bool_decide_eq_false_2 _ Hraw), Hp. reflexivity.
Qed.

(** X5. A response whose body is not empty and does not parse as JSON is
    reported as [BAD_RESPONSE], whatever its status: the body is parsed
    before the status is looked at, so the status (429, 401, ...) does not
    reach the error code, and a 2xx status does not help either. *)
Theorem fetchJson_non_json_wins (who : ProviderName) (st : Z) (raw : string) :
  raw ≠ "" → JSON_parse raw = None →
  Http.fetchJson JSON_parse empty_object who (Http.Responded st raw)
  = Threw (ThrownProviderError
             {| provider := who; code := BAD_RESPONSE;
                message := "Provider returned non-JSON content.";
                status := Some st |}).
Proof.
  intros Hraw Hp. rewrite fetchJson_responded. unfold Http.body_of.
  rewrite (bool_decide_eq_false_2 _ Hraw), Hp. reflexivity.
Qed.

(** X6. A response with a status outside 200..299 whose body is empty or
    parses as JSON makes [fetchJson] throw a [ProviderError] that carries
    the status, with code [AUTH] exactly for 401 and 403, [NOT_FOUND]
    exactly for 404, [RATE_LIMIT] exactly for 429, and [UPSTREAM] for every
    other status. *)
Theorem fetchJson_status_decides_code (who : ProviderName) (st : Z) (raw : string) :
  is_Some (Http.body_of JSON_parse empty_object raw) → ¬ (200 ≤ st ≤ 299)%Z →
  ∃ e, Http.fetchJson JSON_parse empty_object who (Http.Responded st raw)
       = Threw (ThrownProviderError e)
       ∧ provider e = who ∧ status e = Some st
       ∧ (code e = AUTH ↔ st = 401 ∨ st = 403)%Z
       ∧ (code e = NOT_FOUND ↔ st = 404)%Z
       ∧ (code e = RATE_LIMIT ↔ st = 429)%Z
       ∧ (code e = UPSTREAM ↔ st ≠ 401 ∧ st ≠ 403 ∧ st ≠ 404 ∧ st ≠ 429)%Z.
Proof.
  intros [parsed Hb] Hst. rewrite fetchJson_responded, Hb.
  unfold Http.response_ok. rewrite (bool_decide_eq_false_2 _ Hst).
  eexists. split; [reflexivity|]. simpl.
  destruct (mapStatusToCode_cases st) as (Ha & Hn & Hr & _ & _).
  split; [reflexivity|]. split; [reflexivity|].
  split; [exact Ha|]. split; [exact Hn|]. split; [exact Hr|]. split.
  - intros Hu. rewrite Hu in Ha, Hn, Hr.
    split; [|split; [|split]]; intros Heq.
    + destruct Ha as [_ Ha]. discriminate Ha. auto.
    + destruct Ha as [_ Ha]. discriminate Ha. auto.
    + destruct Hn as [_ Hn]. discriminate Hn. auto.
    + destruct Hr as [_ Hr]. discriminate Hr. auto.
  - intros (H1 & H2 & H3 & H4). unfold mapStatusToCode.
    repeat (case_decide; try lia). reflexivity.
Qed.
End FetchJsonFacts.

(** An aborted request is a [NETWORK] error without a status. *)
Lemma fetchJson_rejections_are_typed_witness :
  ∃ e, Http.fetchJson Http.braces_only [] alphavantage
         (Http.FetchRejected "This operation was aborted")
       = Threw (ThrownProviderError e)
       ∧ provider e = alphavantage ∧ code e = NETWORK ∧ status e = None.
Proof.
  destruct (fetchJson_rejections_are_typed Http.braces_only [] alphavantage
              (Http.FetchRejected "This operation was aborted") _ eq_refl)
    as (e & He & Hwho & Hcode & _ & Hstatus).
  exists e. split; [rewrite <- He; reflexivity|].
  split; [exact Hwho|]. split; [apply Hcode; reflexivity|apply Hstatus; reflexivity].
Defined.

(** A 429 with an HTML body is a [BAD_RESPONSE], not a [RATE_LIMIT]. *)
Lemma fetchJson_non_json_wins_witness :
  Http.fetchJson Http.braces_only [] finnhub
    (Http.Responded 429 "<html>Too Many Requests</html>")
  = Threw (ThrownProviderError
             {| provider := finnhub; code := BAD_RESPONSE;
                message := "Provider returned non-JSON content.";
                status := Some 429%Z |}).
Proof.
  apply fetchJson_non_json_wins; [discriminate|reflexivity].
Defined.

(** A 503 with the body [{}] is an [UPSTREAM] error with status 503. *)
Lemma fetchJson_status_decides_code_witness :
  ∃ e, Http.fetchJson Http.braces_only [] finnhub (Http.Responded 503 "{}")
       = Threw (ThrownProviderError e)
       ∧ code e = UPSTREAM ∧ status e = Some 503%Z.
Proof.
  destruct (fetchJson_status_decides_code Http.braces_only [] finnhub 503 "{}")
    as (e & He & _ & Hstatus & _ & _ & _ & Hcode); [eexists; reflexivity|lia|].
  exists e. split; [exact He|]. split; [apply Hcode; lia|exact Hstatus].
Defined.

(** ** The adapters' [request] *)

Lemma truthy_Some (s : string) : truthy (Some s) = true ↔ s ≠ "".
Proof.
  unfold truthy. rewrite negb_true_iff, bool_decide_eq_false. reflexivity.
Qed.

(** X7. When the body Finnhub returned has a non-empty [error] member,
    [request] throws a [ProviderError] for finnhub whose message is that
    text and that has no status. Its code is [RATE_LIMIT] exactly when the
    lower-cased text contains "limit"; [AUTH] exactly when it does not but
    contains "token" or "auth"; and [UPSTREAM] exactly when it contains
    none of the three. *)
Theorem finnhub_request_codes `{Text} {T : Type} (data : FinnhubClient.Reply T)
    (error : string) :
  FinnhubClient.reply_error data = Some error →
  error ≠ "" →
  ∃ c,
    FinnhubClient.request (Returned data)
    = Threw (ThrownProviderError
               {| provider := finnhub; code := c; message := error; status := None |})
    ∧ (c = RATE_LIMIT ↔ includes (toLowerCase error) "limit" = true)
    ∧ (c = AUTH ↔ includes (toLowerCase error) "limit" = false
                  ∧ (includes (toLowerCase error) "token" = true
                     ∨ includes (toLowerCase error) "auth" = true))
    ∧ (c = UPSTREAM ↔ includes (toLowerCase error) "limit" = false
                      ∧ includes (toLowerCase error) "token" = false
                      ∧ includes (toLowerCase error) "auth" = false).
Proof.
  intros Herr Hne. unfold FinnhubClient.request. simpl. rewrite Herr.
  rewrite (proj2 (truthy_Some error) Hne). simpl.
  destruct (includes (toLowerCase error) "limit");
    [|destruct (includes (toLowerCase error) "token");
      [|destruct (includes (toLowerCase error) "auth")]];
    simpl; eexists; (split; [reflexivity|]);
    repeat split; intros; try done; try tauto; intuition discriminate.
Qed.

(** Finnhub's rate-limit text, with ASCII lower-casing. *)
Lemma finnhub_request_codes_witness :
  FinnhubClient.request (H := ascii_text)
    (Returned {| FinnhubClient.reply_error :=
                   Some "API limit reached. Please try again later. Remaining Limit: 0";
                 FinnhubClient.reply_data := () |})
  = Threw (ThrownProviderError
             {| provider := finnhub; code := RATE_LIMIT;
                message := "API limit reached. Please try again later. Remaining Limit: 0";
                status := None |}).
Proof.
  destruct (finnhub_request_codes (H := ascii_text)
              {| FinnhubClient.reply_error :=
                   Some "API limit reached. Please try again later. Remaining Limit: 0";
                 FinnhubClient.reply_data := () |}
              "API limit reached. Please try again later. Remaining Limit: 0"
              eq_refl ltac:(discriminate))
    as (c & Hreq & Hrl & _).
  rewrite Hreq. assert (c = RATE_LIMIT) as -> by (apply Hrl; vm_compute; reflexivity).
  reflexivity.
Defined.



(** ** Finnhub news and RSI *)

Lemma kept_headlines (news : list FinnhubClient.NewsPayload) :
  (λ item, nullish (FinnhubClient.news_headline item) "Untitled")
  <$> filter (λ item, truthy (FinnhubClient.news_headline item) = true) news
  = filter (λ h, h ≠ "") (omap FinnhubClient.news_headline news).
Proof.
  induction news as [|item news IH]; [reflexivity|].
  rewrite filter_cons.
  destruct (FinnhubClient.news_headline item) as [h|] eqn:Hh.
  - change (omap FinnhubClient.news_headline (item :: news))
      with (match FinnhubClient.news_headline item with
            | Some h => h :: omap FinnhubClient.news_headline news
            | None => omap FinnhubClient.news_headline news
            end).
    rewrite Hh, filter_cons.
    destruct (decide (truthy (Some h) = true)) as [Ht|Ht].
    + rewrite decide_True by (apply truthy_Some, Ht).
      rewrite fmap_cons, IH, Hh. reflexivity.
    + rewrite decide_False; [exact IH|].
      intros Hne. apply Ht, truthy_Some, Hne.
  - change (omap FinnhubClient.news_headline (item :: news))
      with (match FinnhubClient.news_headline item with
            | Some h => h :: omap FinnhubClient.news_headline news
            | None => omap FinnhubClient.news_headline news
            end).
    rewrite Hh. rewrite decide_False by (simpl; discriminate). exact IH.
Qed.

(** X9. A non-null result of Finnhub's [getNews] is not empty and has at
    most [limit] items, and its headlines are, in upstream order, the first
    [limit] non-empty headlines of the payload: an item without a headline
    is dropped before the limit is applied, so the "Untitled" default is
    never used. The result is null exactly when [limit] is 0 or no item of
    the payload has a non-empty headline. *)
Theorem finnhub_news_headlines (symbol from to : string) (limit : nat)
    (data : option (list FinnhubClient.NewsPayload)) :
  (∀ items,
     FinnhubClient.getNews symbol from to limit (Returned data) = Returned (Some items) →
     items ≠ []
     ∧ length items ≤ limit
     ∧ headline <$> items
       = take limit (filter (λ h, h ≠ "")
                       (omap FinnhubClient.news_headline (default [] data))))
  ∧ (FinnhubClient.getNews symbol from to limit (Returned data) = Returned None
     ↔ limit = 0
       ∨ Forall (λ item, truthy (FinnhubClient.news_headline item) = false)
           (default [] data)).
Proof.
  unfold FinnhubClient.getNews, nullish. simpl.
  set (kept := filter _ (default [] data)).
  split.
  - intros items.
    destruct (Nat.eqb_spec (length (take limit kept)) 0) as [Hz|Hnz]; [discriminate|].
    intros [= <-]. split; [|split].
    + intros Hnil. apply Hnz. apply (f_equal length) in Hnil.
      rewrite length_fmap in Hnil. exact Hnil.
    + rewrite length_fmap, length_take. lia.
    + rewrite <- list_fmap_compose. unfold compose. simpl.
      rewrite fmap_take. unfold kept. rewrite kept_headlines. reflexivity.
  - destruct (Nat.eqb_spec (length (take limit kept)) 0) as [Hz|Hnz].
    + split; [|reflexivity]. intros _.
      rewrite length_take in Hz.
      destruct (decide (limit = 0)) as [?|Hl]; [auto|right].
      assert (Hk : kept = []) by (apply nil_length_inv; lia).
      apply Forall_forall. intros item Hin.
      destruct (truthy (FinnhubClient.news_headline item)) eqn:Ht; [|reflexivity].
      assert (item ∈ kept) as Hin' by (apply list_elem_of_filter; auto).
      rewrite Hk in Hin'. inversion Hin'.
    + split; [discriminate|]. intros [->|Hall]; exfalso; apply Hnz.
      * reflexivity.
      * rewrite length_take.
        assert (Hk : kept = []).
        { apply elem_of_nil_inv. intros item Hin.
          apply list_elem_of_filter in Hin as [Ht Hin].
          rewrite Forall_forall in Hall. rewrite (Hall item Hin) in Ht. discriminate. }
        rewrite Hk. simpl. lia.
Qed.

Lemma pair_up_zip (ts : list Z) (vs : list float) :
  omap (λ point : Z * option float,
          (λ value, {| rsi_timestamp := point.1; value := value |}) <$> point.2)
    (imap (λ index timestamp, (timestamp, vs !! index)) ts)
  = zip_with (λ t v, {| rsi_timestamp := t; value := v |}) ts vs.
Proof.
  revert vs. induction ts as [|t ts IH]; intros vs; [reflexivity|].
  rewrite imap_cons. destruct vs as [|v vs].
  - simpl. specialize (IH []). simpl in IH.
    rewrite <- (zip_with_nil_r (λ t v, {| rsi_timestamp := t; value := v |}) ts).
    rewrite <- IH. f_equal.
  - simpl. f_equal. apply IH.
Qed.

(** X10. On status "ok" with non-empty timestamp and value arrays,
    Finnhub's [getRsi] pairs the two arrays index by index: the result is
    not empty and has as many points as the shorter array, the k-th point
    carrying the k-th timestamp and the k-th value; timestamps beyond the
    values are dropped, and so are values beyond the timestamps. *)
Theorem finnhub_rsi_pairs_up (symbol : string) (interval : Interval) (from to : Z)
    (period : nat) (data : FinnhubClient.RsiPayload) (ts : list Z) (vs : list float) :
  FinnhubClient.rsi_s data = Some "ok" →
  FinnhubClient.rsi_t data = Some ts →
  FinnhubClient.rsi_values data = Some vs →
  ts ≠ [] → vs ≠ [] →
  ∃ points,
    FinnhubClient.getRsi symbol interval from to period (Returned data)
    = Returned (Some points)
    ∧ points = zip_with (λ t v, {| rsi_timestamp := t; value := v |}) ts vs
    ∧ length points = length ts `min` length vs
    ∧ points ≠ [].
Proof.
  intros Hs Ht Hv Hts Hvs. eexists. split; [|split; [reflexivity|split]].
  - unfold FinnhubClient.getRsi. simpl. rewrite Hs, Ht, Hv.
    destruct ts as [|t ts]; [done|]. destruct vs as [|v vs]; [done|]. simpl.
    do 2 f_equal.
    change (FinnhubClient.opt_at (Some (v :: vs))) with (λ i, (v :: vs) !! i).
    exact (pair_up_zip (t :: ts) (v :: vs)).
  - apply length_zip_with.
  - destruct ts; [done|]. destruct vs; [done|]. discriminate.
Qed.

(** Three timestamps and two values give two points. *)
Lemma finnhub_rsi_pairs_up_witness :
  FinnhubClient.getRsi "IBM" ID 1700000000 1700172800 14
    (Returned FinnhubClient.rsi_short_of_values)
  = Returned (Some [{| rsi_timestamp := 1700000000; value := 50 |};
                    {| rsi_timestamp := 1700086400; value := 62.5 |}]).
Proof.
  destruct (finnhub_rsi_pairs_up "IBM" ID 1700000000 1700172800 14
              FinnhubClient.rsi_short_of_values _ _ eq_refl eq_refl eq_refl)
    as (points & Hret & Hzip & _); [discriminate|discriminate|].
  rewrite Hret, Hzip. reflexivity.
Defined.

(** ** Alpha Vantage: the numbers of a result *)

Lemma toNumber_finite {rt : Runtime} (value : option string) (x : float) :
  AlphaVantageClient.toNumber value = Some x → PrimFloat.is_finite x = true.
Proof.
  unfold AlphaVantageClient.toNumber. destruct value as [text|]; [|discriminate].
  case_bool_decide; [discriminate|].
  destruct (Number_isFinite (Number_parse text)) eqn:Hfin; [|discriminate].
  intros [= <-]. exact Hfin.
Qed.

Lemma toNumber_or_finite {rt : Runtime} (value : option string) (d : float) :
  PrimFloat.is_finite d = true →
  PrimFloat.is_finite (nullish (AlphaVantageClient.toNumber value) d) = true.
Proof.
  intros Hd. destruct (AlphaVantageClient.toNumber value) as [x|] eqn:Hx; simpl.
  - apply (toNumber_finite _ _ Hx).
  - exact Hd.
Qed.

Lemma parseSeriesEntry_finite {rt : Runtime} (key : string) (values : gmap string string)
    (c : NormalizedCandle) :
  AlphaVantageClient.parseSeriesEntry key values = Some c →
  AlphaVantageClient.finite_candle c.
Proof.
  unfold AlphaVantageClient.parseSeriesEntry.
  destruct (AlphaVantageClient.epoch_seconds key); [|discriminate].
  destruct (AlphaVantageClient.toNumber (values !! "1. open")) eqn:Ho; [|discriminate].
  destruct (AlphaVantageClient.toNumber (values !! "2. high")) eqn:Hh; [|discriminate].
  destruct (AlphaVantageClient.toNumber (values !! "3. low")) eqn:Hl; [|discriminate].
  destruct (AlphaVantageClient.toNumber (values !! "4. close")) eqn:Hc; [|discriminate].
  intros [= <-]. unfold AlphaVantageClient.finite_candle. simpl.
  repeat split; eauto using toNumber_finite.
  destruct (AlphaVantageClient.toNumber (values !! "5. volume")) eqn:Hv; simpl.
  - eauto using toNumber_finite.
  - apply toNumber_or_finite. reflexivity.
Qed.

(** X11. Whatever strings Alpha Vantage sends and however the host parses
    them, the numbers of a result are finite: every candle that
    [getCandles] returns has finite open, high, low, close and volume, and
    a quote that [getQuote] returns has finite price, change,
    percentChange, high, low, open and previousClose (no NaN and no
    infinity reaches the caller). *)
Theorem alphavantage_numbers_are_finite {rt : Runtime} :
  (∀ symbol interval from to data candles,
     AlphaVantageClient.getCandles symbol interval from to (Returned data)
     = Returned (Some candles) →
     Forall AlphaVantageClient.finite_candle candles)
  ∧ (∀ symbol upstream q,
       AlphaVantageClient.getQuote symbol upstream = Returned (Some q) →
       AlphaVantageClient.finite_quote q).
Proof.
  split.
  - intros symbol interval from to data candles.
    unfold AlphaVantageClient.getCandles. simpl.
    destruct (data !! AlphaVantageClient.seriesKey interval) as [series|];
      [|discriminate].
    intros [= <-]. apply Forall_forall. intros c Hc.
    rewrite sort_by_timestamp_perm in Hc.
    apply list_elem_of_filter in Hc as [_ Hc].
    apply parsed_entries_elem in Hc as (key & values & _ & Hparse).
    exact (parseSeriesEntry_finite _ _ _ Hparse).
  - intros symbol upstream q.
    destruct upstream as [data|t]; [|discriminate].
    unfold AlphaVantageClient.getQuote, mbind, Result_bind, mret, Result_ret.
    destruct (AlphaVantageClient.Global_Quote data) as [quote|]; [|discriminate].
    destruct (AlphaVantageClient.toNumber (quote !! "05. price")) as [p|] eqn:Hp;
      [|discriminate].
    destruct (p <=? 0)%float; [discriminate|].
    intros [= <-]. pose proof (toNumber_finite _ _ Hp) as Hfin.
    unfold AlphaVantageClient.finite_quote.
    cbn [price change percentChange q_high q_low q_open previousClose].
    repeat split; try exact Hfin.
    all: try (apply toNumber_or_finite; first [exact Hfin | reflexivity]).
    case_bool_decide; [reflexivity|].
    destruct (Number_isFinite _) eqn:Hpc; [exact Hpc|reflexivity].
Qed.

(** ** Orchestrator: the fallback path and the calls of a run *)

Section FallbackFacts.
Context {W T : Type}.
Implicit Types (fetch : Fetcher W T) (io : Io W) (settled : Result (option T)).

(** X12. When the primary gives no data (it resolves to null or throws)
    and the fallback resolves to data, the outcome is that data with
    source "Alpha Vantage" and no error, after exactly the two calls, the
    fallback running in the world the primary left. The warning says that
    the primary returned no data when it resolved to null, that there was a
    primary provider error when it threw a [ProviderError], and is absent
    when it threw anything else. *)
Theorem fallback_data_with_warning (tool : string) fetch1 fetch2 io
    settled1 (d : T) (w1 w2 : W) :
  fetch1 (world io) = (settled1, w1) →
  no_data settled1 = true →
  fetch2 w1 = (Returned (Some d), w2) →
  executeWithFallback
    {| toolName := tool; primary := Some fetch1; fallback := Some fetch2 |} io
  = ({| data := Some d; source := Some "Alpha Vantage";
        warning := fallback_warning settled1; error := None |},
     {| world := w2; calls := calls io ++ [Primary; Fallback] |}).
Proof.
  intros H1 Hn1 H2.
  unfold executeWithFallback, bind, invoke, ret. simpl. rewrite H1.
  destruct settled1 as [[d1|]|[e1|]]; try discriminate; simpl; rewrite H2; simpl;
    rewrite <- app_assoc; reflexivity.
Qed.

(** X13. The calls of a run of [executeWithFallback]: the primary is
    called once when it is configured, and never otherwise; the fallback is
    called once, after the primary, when it is configured and the primary
    is not configured or gave no data, and never otherwise. No fetcher is
    called twice: there is no retry. *)
Theorem executeWithFallback_calls (args : Args W T) io :
  calls (executeWithFallback args io).2 = calls io ++ expected_calls args io.
Proof.
  destruct args as [tool [fetch1|] [fetch2|]]; destruct io as [w log];
    unfold executeWithFallback, expected_calls, primary_gave_no_data,
      bind, invoke, ret; simpl.
  - destruct (fetch1 w) as [[[d1|]|[e1|]] w1]; simpl;
      try (destruct (fetch2 w1) as [[[d2|]|[e2|]] w2]; simpl);
      rewrite <- ?app_assoc; reflexivity.
  - destruct (fetch1 w) as [[[d1|]|[e1|]] w1]; reflexivity.
  - destruct (fetch2 w) as [[[d2|]|[e2|]] w2]; reflexivity.
  - rewrite app_nil_r. reflexivity.
Qed.

(** X14. Where the data of an outcome comes from. Data in the outcome
    means no error, and either source "Finnhub", no warning, and the data
    is what the primary resolved to; or source "Alpha Vantage", the
    primary is not configured or gave no data, and the data is what the
    fallback resolved to in the world after the primary. No data in the
    outcome means an error message, no source and no warning. *)
Theorem outcome_provenance (args : Args W T) io :
  match data (executeWithFallback args io).1 with
  | Some d =>
      error (executeWithFallback args io).1 = None
      ∧ ((source (executeWithFallback args io).1 = Some "Finnhub"
          ∧ warning (executeWithFallback args io).1 = None
          ∧ ∃ fetch, primary args = Some fetch
                     ∧ (fetch (world io)).1 = Returned (Some d))
         ∨ (source (executeWithFallback args io).1 = Some "Alpha Vantage"
            ∧ primary_gave_no_data args io = true
            ∧ ∃ fetch, fallback args = Some fetch
                       ∧ (fetch (world_after_primary args io)).1 = Returned (Some d)))
  | None =>
      is_Some (error (executeWithFallback args io).1)
      ∧ source (executeWithFallback args io).1 = None
      ∧ warning (executeWithFallback args io).1 = None
  end.
Proof.
  destruct args as [tool [fetch1|] [fetch2|]]; destruct io as [w log];
    unfold executeWithFallback, primary_gave_no_data, world_after_primary,
      bind, invoke, ret; simpl.
  - destruct (fetch1 w) as [[[d1|]|[e1|]] w1] eqn:H1; simpl.
    + split; [reflexivity|]. left. repeat split.
      exists fetch1. rewrite H1. auto.
    + destruct (fetch2 w1) as [[[d2|]|[e2|]] w2] eqn:H2; simpl;
        try (split; [eauto|split; reflexivity]).
      split; [reflexivity|]. right. repeat split.
      exists fetch2. rewrite H2. auto.
    + destruct (fetch2 w1) as [[[d2|]|[e2|]] w2] eqn:H2; simpl;
        try (split; [eauto|split; reflexivity]).
      split; [reflexivity|]. right. repeat split.
      exists fetch2. rewrite H2. auto.
    + destruct (fetch2 w1) as [[[d2|]|[e2|]] w2] eqn:H2; simpl;
        try (split; [eauto|split; reflexivity]).
      split; [reflexivity|]. right. repeat split.
      exists fetch2. rewrite H2. auto.
  - destruct (fetch1 w) as [[[d1|]|[e1|]] w1] eqn:H1; simpl;
      try (split; [eauto|split; reflexivity]).
    split; [reflexivity|]. left. repeat split.
    exists fetch1. rewrite H1. auto.
  - destruct (fetch2 w) as [[[d2|]|[e2|]] w2] eqn:H2; simpl;
      try (split; [eauto|split; reflexivity]).
    split; [reflexivity|]. right. repeat split.
    exists fetch2. rewrite H2. auto.
  - split; [eauto|split; reflexivity].
Qed.
End FallbackFacts.

(** A primary that throws something other than a [ProviderError]: the
    fallback's data comes without a warning. *)
Lemma fallback_data_with_warning_witness :
  executeWithFallback
    {| toolName := "get_news"; primary := Some throws_other;
       fallback := Some (resolves "headline") |} start
  = ({| data := Some "headline"; source := Some "Alpha Vantage";
        warning := None; error := None |},
     {| world := (); calls := [Primary; Fallback] |}).
Proof.
  exact (fallback_data_with_warning "get_news" throws_other (resolves "headline")
           start (Threw ThrownOther) "headline" () () eq_refl eq_refl eq_refl).
Defined.

(** ** The [get_quote] tool, from the HTTP exchange to the outcome *)

Section QuoteTool.
Context {W : Type} `{Text} {rt : Runtime}.
Variable exchange_with : ProviderName → W → Http.Exchange * W.
Variable parse_finnhub :
  string → option (FinnhubClient.Reply FinnhubClient.QuotePayload).
Variable parse_alpha :
  string → option (AlphaVantageClient.Reply AlphaVantageClient.QuotePayload).

Lemma finnhub_quote_429 (symbol : string) (w w1 : W) (raw : string) :
  exchange_with finnhub w = (Http.Responded 429 raw, w1) →
  is_Some (Http.body_of parse_finnhub
             {| FinnhubClient.reply_error := None;
                FinnhubClient.reply_data := Server.empty_finnhub_quote |} raw) →
  ∃ e, Server.finnhub_quote exchange_with parse_finnhub symbol w
       = (Threw (ThrownProviderError e), w1)
       ∧ code e = RATE_LIMIT.
Proof.
  intros Hx [parsed Hb]. unfold Server.finnhub_quote. rewrite Hx.
  unfold FinnhubClient.request_exchange. rewrite fetchJson_responded, Hb.
  simpl. eexists. split; reflexivity.
Qed.

(** X15. The [get_quote] tool when Finnhub is configured and answers the
    quote request with HTTP 429 and a body that is empty or parses as
    JSON. If the tool ends without data (Alpha Vantage is not configured,
    or it too gives none, for whatever reason), the error shown is the
    rate-limit message. If it ends with data, the data comes from Alpha
    Vantage with the warning that the fallback was used due to a primary
    provider error. *)
Theorem finnhub_429_reports_rate_limit (alpha_key : bool) (symbol : string)
    (io : Io W) (w1 : W) (raw : string) :
  exchange_with finnhub (world io) = (Http.Responded 429 raw, w1) →
  is_Some (Http.body_of parse_finnhub
             {| FinnhubClient.reply_error := None;
                FinnhubClient.reply_data := Server.empty_finnhub_quote |} raw) →
  match data (Server.get_quote_fetch exchange_with parse_finnhub parse_alpha
                true alpha_key symbol io).1 with
  | None =>
      error (Server.get_quote_fetch exchange_with parse_finnhub parse_alpha
               true alpha_key symbol io).1
      = Some (rate_limit_message "get_quote")
  | Some q =>
      source (Server.get_quote_fetch exchange_with parse_finnhub parse_alpha
                true alpha_key symbol io).1 = Some "Alpha Vantage"
      ∧ warning (Server.get_quote_fetch exchange_with parse_finnhub parse_alpha
                   true alpha_key symbol io).1
        = Some "Used fallback provider due to primary provider error."
  end.
Proof.
  intros Hx Hb.
  destruct (finnhub_quote_429 symbol _ _ _ Hx Hb) as (e & Hq & He).
  unfold Server.get_quote_fetch. destruct alpha_key.
  - destruct (Server.alpha_quote exchange_with parse_alpha symbol w1)
      as [settled2 w2] eqn:H2.
    destruct (no_data settled2) eqn:Hn2.
    + rewrite (executeWithFallback_terminal "get_quote" _ _ _ _ _ _ _ Hq H2 eq_refl Hn2).
      simpl. f_equal. apply toUserErrorMessage_rate_limit.
      apply Exists_cons_hd. exact He.
    + destruct settled2 as [[q|]|t]; try discriminate.
      unfold executeWithFallback, bind, invoke, ret. simpl. rewrite Hq. simpl.
      rewrite H2. simpl. auto.
  - unfold executeWithFallback, bind, invoke, ret. simpl. rewrite Hq. simpl.
    f_equal. apply toUserErrorMessage_rate_limit. apply Exists_cons_hd. exact He.
Qed.
End QuoteTool.

(** Finnhub answers 429 with an empty body. Without an Alpha Vantage key
    the tool reports the rate limit; with one, and Alpha Vantage answering
    with a quote, the tool has data and warns about the primary's error. *)
Lemma finnhub_429_reports_rate_limit_witness :
  error (Server.get_quote_fetch (H := ascii_text) (rt := sample_runtime)
           Server.finnhub_rate_limited Server.parse_nothing Server.parse_sample_quote
           true false "IBM" start).1
  = Some (rate_limit_message "get_quote")
  ∧ warning (Server.get_quote_fetch (H := ascii_text) (rt := sample_runtime)
               Server.finnhub_rate_limited Server.parse_nothing
               Server.parse_sample_quote true true "IBM" start).1
    = Some "Used fallback provider due to primary provider error.".
Proof.
  split.
  - exact (finnhub_429_reports_rate_limit (H := ascii_text) (rt := sample_runtime)
             Server.finnhub_rate_limited Server.parse_nothing
             Server.parse_sample_quote false "IBM" start () ""
             eq_refl (ex_intro _ _ eq_refl)).
  - pose proof (finnhub_429_reports_rate_limit (H := ascii_text) (rt := sample_runtime)
                  Server.finnhub_rate_limited Server.parse_nothing
                  Server.parse_sample_quote true "IBM" start () ""
                  eq_refl (ex_intro _ _ eq_refl)) as Hrun.
    destruct (data _) in Hrun.
    + exact (proj2 Hrun).
    + vm_compute in Hrun. discriminate Hrun.
Defined.
